(** * FlexibleScreen: a three-pane resizable layout

    Shallow embedding of [src/components/FlexibleScreen.tsx]: the clamp
    helper, the stored-layout reader, the persistence effect, the pointer
    and keyboard handlers, and the properties of the layout ratios
    [topPct] and [leftPct] that follow from them.

    Numbers.  A JavaScript [number] is modelled by [number] below: an exact
    rational, or one of the three IEEE special values [NaN], [+Infinity],
    [-Infinity].  Division by zero, [Infinity - Infinity] and the like
    produce the special values as in JavaScript; rounding, overflow of
    finite results and the sign of zero are not modelled.  The theorems
    keep the order of operations of the code and use of the arithmetic
    only what rounding preserves: the special values, the order, and
    exactness on integers a double holds.  Where rounding decides, the
    computation is run on binary64 numbers in [Binary64]. *)

From Stdlib Require Import QArith Qreduction Lqa Bool String Ascii List Lia DecimalString.
From Stdlib Require PrimFloat.
From stdpp Require Import base option strings gmap.

Local Open Scope Q_scope.

(* ===================================================================== *)
(** ** JavaScript numbers                                                 *)
(* ===================================================================== *)

Module JS.

Inductive number : Type :=
| NaN
| NegInf
| Fin (q : Q)
| PosInf.

Definition num (z : Z) : number := Fin (inject_Z z).

Definition isNaN (a : number) : bool :=
match a with NaN => true | _ => false end.

Definition isFinite (a : number) : bool :=
match a with Fin _ => true | _ => false end.

(** Sign of a rational, as a comparison with zero. *)
Definition Qsign (q : Q) : comparison := q ?= 0.

Definition inf_of (s : comparison) : number :=
match s with Lt => NegInf | Gt => PosInf | Eq => NaN end.

Definition sign_mul (s t : comparison) : comparison :=
match s, t with
| Eq, _ | _, Eq => Eq
| Lt, Lt | Gt, Gt => Gt
| _, _ => Lt
end.

(** [a + b] *)
Definition add (a b : number) : number :=
match a, b with
| NaN, _ | _, NaN => NaN
| PosInf, NegInf | NegInf, PosInf => NaN
| PosInf, _ | _, PosInf => PosInf
| NegInf, _ | _, NegInf => NegInf
| Fin x, Fin y => Fin (Qred (x + y))
end.

(** [a - b] *)
Definition sub (a b : number) : number :=
match a, b with
| NaN, _ | _, NaN => NaN
| PosInf, PosInf | NegInf, NegInf => NaN
| PosInf, _ | _, NegInf => PosInf
| NegInf, _ | _, PosInf => NegInf
| Fin x, Fin y => Fin (Qred (x - y))
end.

(** [a * b]: an infinity times zero is [NaN]. *)
Definition mul (a b : number) : number :=
match a, b with
| NaN, _ | _, NaN => NaN
| Fin x, Fin y => Fin (Qred (x * y))
| PosInf, PosInf | NegInf, NegInf => PosInf
| PosInf, NegInf | NegInf, PosInf => NegInf
| PosInf, Fin y | Fin y, PosInf => inf_of (Qsign y)
| NegInf, Fin y | Fin y, NegInf => inf_of (sign_mul Lt (Qsign y))
end.

(** [a / b]: [0/0] and [Infinity/Infinity] are [NaN], [x/0] is an
  infinity with the sign of [x], [x/Infinity] is zero. *)
Definition div (a b : number) : number :=
match a, b with
| NaN, _ | _, NaN => NaN
| Fin x, Fin y =>
    match Qsign y with
    | Eq => inf_of (Qsign x)
    | _ => Fin (Qred (x / y))
    end
| Fin _, _ => Fin 0
| PosInf, Fin y =>
    match Qsign y with Lt => NegInf | _ => PosInf end
| NegInf, Fin y =>
    match Qsign y with Lt => PosInf | _ => NegInf end
| _, _ => NaN
end.

(** [a < b]; every comparison with [NaN] is false. *)
Definition ltb (a b : number) : bool :=
match a, b with
| NaN, _ | _, NaN => false
| NegInf, NegInf => false
| NegInf, _ => true
| _, NegInf => false
| PosInf, _ => false
| _, PosInf => true
| Fin x, Fin y => match x ?= y with Lt => true | _ => false end
end.

(** [a <= b] *)
Definition leb (a b : number) : bool :=
match a, b with
| NaN, _ | _, NaN => false
| NegInf, _ => true
| _, NegInf => false
| _, PosInf => true
| PosInf, _ => false
| Fin x, Fin y => match x ?= y with Gt => false | _ => true end
end.

(** [Object.is(a, b)] on numbers (signed zeros are not modelled): the
  comparison React uses for state values and effect dependencies. *)
Definition same (a b : number) : bool :=
match a, b with
| NaN, NaN | NegInf, NegInf | PosInf, PosInf => true
| Fin x, Fin y => Qeq_bool x y
| _, _ => false
end.

(** [Math.max(a, b)] and [Math.min(a, b)]: [NaN] if either argument is. *)
Definition Math_max (a b : number) : number :=
if isNaN a || isNaN b then NaN else if ltb a b then b else a.

Definition Math_min (a b : number) : number :=
if isNaN a || isNaN b then NaN else if ltb b a then b else a.

(** Numeric equality, the propositional form of [same]. *)
Definition eqv (a b : number) : Prop :=
match a, b with
| NaN, NaN | NegInf, NegInf | PosInf, PosInf => True
| Fin x, Fin y => x == y
| _, _ => False
end.

End JS.

Import JS.

Declare Scope js_scope.
Delimit Scope js_scope with js.
Bind Scope js_scope with number.
Infix "+" := JS.add : js_scope.
Infix "-" := JS.sub : js_scope.
Infix "*" := JS.mul : js_scope.
Infix "/" := JS.div : js_scope.
Infix "≡ₙ" := JS.eqv (at level 70, no associativity).

(* ===================================================================== *)
(** ** JavaScript values, exceptions and the storage area                 *)
(* ===================================================================== *)

(** The values [JSON.parse] can return and [JSON.stringify] consumes.
    An object is its list of own properties; reading a property takes the
    first binding of the name. *)
#[warnings="-register-all"] Inductive JSValue : Type :=
| JSundefined
| JSnull
| JSboolean (b : bool)
| JSnumber (n : number)
| JSstring (s : string)
| JSarray (items : list JSValue)
| JSobject (props : list (string * JSValue)).

Inductive Exn : Type :=
| SyntaxError            (* JSON.parse on text that is not JSON *)
| SecurityError          (* storage access denied or disabled *)
| QuotaExceededError.    (* storage full *)

(** Result of evaluating code that may throw. *)
Inductive Completion (A : Type) : Type :=
| Normal (a : A)
| Throw (e : Exn).
Arguments Normal {A} a.
Arguments Throw {A} e.

Definition bind {A B} (c : Completion A) (k : A -> Completion B) : Completion B :=
  match c with
  | Normal a => k a
  | Throw e => Throw e
  end.

(** [try { body } catch {}] followed by [rest]: an exception thrown by the
    body is discarded and control continues after the statement. *)
Definition try_catch {A} (body : Completion A) (rest : Completion A) : Completion A :=
  match body with
  | Normal a => Normal a
  | Throw _ => rest
  end.

Notation "'let*' x := c 'in' k" := (bind c (fun x => k))
  (at level 10, x name, c at level 100, k at level 200).

Fixpoint own_property (props : list (string * JSValue)) (name : string) : JSValue :=
  match props with
  | [] => JSundefined
  | (k, v) :: rest => if String.eqb k name then v else own_property rest name
  end.

(** [v?.name]: [undefined] on [null] and [undefined]; primitives and
    arrays have no property of the names used here. *)
Definition optional_get (v : JSValue) (name : string) : JSValue :=
  match v with
  | JSobject props => own_property props name
  | _ => JSundefined
  end.

(** The [localStorage] area: its items, and whether access is denied
    (every call throws) or the area is full (every write throws). *)
Record Storage : Type := {
  items : gmap string string;
  denied : bool;
  full : bool
}.

Definition getItem (st : Storage) (key : string) : Completion (option string) :=
  if denied st then Throw SecurityError else Normal (items st !! key).

Definition setItem (st : Storage) (key value : string) : Completion Storage :=
  if denied st then Throw SecurityError
  else if full st then Throw QuotaExceededError
  else Normal {| items := <[key := value]> (items st);
                 denied := denied st; full := full st |}.

(* ===================================================================== *)
(** ** The component                                                      *)
(* ===================================================================== *)

Record Initial : Type := {
  initial_topPct : option number;
  initial_leftPct : option number
}.

(** [FlexibleScreenProps]; an absent optional property is [None]. The
    three render callbacks do not take part in the layout logic. *)
Record FlexibleScreenProps : Type := {
  prop_minTopPct : option number;
  prop_minBottomPct : option number;
  prop_minLeftPct : option number;
  prop_minRightPct : option number;
  prop_initial : option Initial;
  prop_storageKey : option string
}.

Inductive DragType : Type := horizontal | vertical.

Record DOMRect : Type := {
  rect_left : number;
  rect_top : number;
  rect_width : number;
  rect_height : number
}.

(** What [getBoundingClientRect] returns at the time of an event, for the
    whole surface ([containerRef]) and for the top region ([topAreaRef]). *)
Record Geometry : Type := {
  containerRect : DOMRect;
  topAreaRect : DOMRect
}.

Record PointerEvent : Type := {
  clientX : number;
  clientY : number
}.

(** React state ([topPct], [leftPct]), the drag ref, and the
    [select-none] class on the document body. *)
Record State : Type := {
  topPct : number;
  leftPct : number;
  dragRef : option DragType;
  select_none : bool
}.

Inductive Event : Type :=
| PointerDown (handle : DragType)
| PointerMove (e : PointerEvent) (g : Geometry)
| PointerUp
| PointerCancel
| KeyDown (handle : DragType) (key : string).

Definition with_topPct (v : number) (s : State) : State :=
  {| topPct := v; leftPct := leftPct s;
     dragRef := dragRef s; select_none := select_none s |}.

Definition with_leftPct (v : number) (s : State) : State :=
  {| topPct := topPct s; leftPct := v;
     dragRef := dragRef s; select_none := select_none s |}.

Definition clamp (v min max : number) : number :=
  Math_min (Math_max v min) max.

Section FlexibleScreen.

(** [JSON.parse] and [JSON.stringify] are the platform's. *)
Variable JSON_parse : string -> Completion JSValue.
Variable JSON_stringify : JSValue -> string.

Variable props : FlexibleScreenProps.

(** Destructuring defaults of the component's parameters. *)
Definition minTopPct : number := default (num 20) (prop_minTopPct props).
Definition minBottomPct : number := default (num 20) (prop_minBottomPct props).
Definition minLeftPct : number := default (num 15) (prop_minLeftPct props).
Definition minRightPct : number := default (num 15) (prop_minRightPct props).
Definition initial : Initial :=
  default {| initial_topPct := Some (num 65); initial_leftPct := Some (num 50) |}
          (prop_initial props).

(** [storageKey] when it is truthy: neither absent, [null] nor empty. *)
Definition storageKey : option string :=
  match prop_storageKey props with
  | Some k => if String.eqb k EmptyString then None else Some k
  | None => None
  end.

Definition readStored (st : Storage) : Completion (option (number * number)) :=
  match storageKey with
  | None => Normal None
  | Some key =>
      try_catch
        (let* raw := getItem st key in
         match raw with
         | None => Normal None
         | Some text =>
             if String.eqb text EmptyString then Normal None
             else
               let* parsed := JSON_parse text in
               (* typeof parsed?.topPct === 'number' && typeof parsed?.leftPct === 'number' *)
               match optional_get parsed "topPct", optional_get parsed "leftPct" with
               | JSnumber t, JSnumber l =>
                   Normal (Some (clamp t minTopPct (num 100 - minBottomPct)%js,
                                 clamp l minLeftPct (num 100 - minRightPct)%js))
               | _, _ => Normal None
               end
         end)
        (Normal None)
  end.

(** The two [useState] initial values. *)
Definition initialState (st : Storage) : Completion State :=
  let* stored := readStored st in
  Normal {| topPct := match stored with
                      | Some (t, _) => t
                      | None => default (num 65) (initial_topPct initial)
                      end;
            leftPct := match stored with
                       | Some (_, l) => l
                       | None => default (num 50) (initial_leftPct initial)
                       end;
            dragRef := None;
            select_none := false |}.

Definition layout_value (t l : number) : JSValue :=
  JSobject [("topPct"%string, JSnumber t); ("leftPct"%string, JSnumber l)].

(** Body of the persistence effect. *)
Definition persist (s : State) (st : Storage) : Completion Storage :=
  match storageKey with
  | None => Normal st
  | Some key =>
      try_catch
        (setItem st key (JSON_stringify (layout_value (topPct s) (leftPct s))))
        (Normal st)
  end.

Definition onPointerMove (e : PointerEvent) (g : Geometry) (s : State) : State :=
  match dragRef s with
  | None => s
  | Some horizontal =>
      let rect := containerRect g in
      let y := (clientY e - rect_top rect)%js in
      let pct := (y / rect_height rect * num 100)%js in
      let next := clamp pct minTopPct (num 100 - minBottomPct)%js in
      with_topPct next s
  | Some vertical =>
      let rect := topAreaRect g in
      let x := (clientX e - rect_left rect)%js in
      let pct := (x / rect_width rect * num 100)%js in
      let next := clamp pct minLeftPct (num 100 - minRightPct)%js in
      with_leftPct next s
  end.

Definition stopDragging (s : State) : State :=
  {| topPct := topPct s; leftPct := leftPct s;
     dragRef := None; select_none := false |}.

Definition step : number := num 2.

Definition handleVerticalKey (key : string) (s : State) : State :=
  if String.eqb key "ArrowLeft" then
    with_leftPct (clamp (leftPct s - step)%js minLeftPct (num 100 - minRightPct)%js) s
  else if String.eqb key "ArrowRight" then
    with_leftPct (clamp (leftPct s + step)%js minLeftPct (num 100 - minRightPct)%js) s
  else if String.eqb key "Home" then
    with_leftPct (num 50) s
  else s.

Definition handleHorizontalKey (key : string) (s : State) : State :=
  if String.eqb key "ArrowUp" then
    with_topPct (clamp (topPct s - step)%js minTopPct (num 100 - minBottomPct)%js) s
  else if String.eqb key "ArrowDown" then
    with_topPct (clamp (topPct s + step)%js minTopPct (num 100 - minBottomPct)%js) s
  else if String.eqb key "Home" then
    with_topPct (num 66) s
  else s.

(** The optional [setPointerCapture] call between the two writes is not
    modelled: the handler is taken to complete. *)
Definition startDrag (type : DragType) (s : State) : State :=
  {| topPct := topPct s; leftPct := leftPct s;
     dragRef := Some type; select_none := true |}.

(** The handler an event reaches. *)
Definition dispatch (ev : Event) (s : State) : State :=
  match ev with
  | PointerDown type => startDrag type s
  | PointerMove e g => onPointerMove e g s
  | PointerUp | PointerCancel => stopDragging s
  | KeyDown vertical key => handleVerticalKey key s
  | KeyDown horizontal key => handleHorizontalKey key s
  end.

(** The effect's dependencies [topPct], [leftPct] are compared with
    [Object.is]; [storageKey] does not change. *)
Definition deps_changed (s s' : State) : bool :=
  negb (same (topPct s) (topPct s') && same (leftPct s) (leftPct s')).

(** First render: seed the state, then run the effect once. *)
Definition mount (st : Storage) : Completion (State * Storage) :=
  let* s := initialState st in
  let* st' := persist s st in
  Normal (s, st').

(** One event: run its handler, then the effect if the layout changed. *)
Definition on_event (ev : Event) (w : State * Storage) : Completion (State * Storage) :=
  let s' := dispatch ev (fst w) in
  if deps_changed (fst w) s' then
    let* st' := persist s' (snd w) in
    Normal (s', st')
  else Normal (s', snd w).

Fixpoint run (evs : list Event) (w : State * Storage) : Completion (State * Storage) :=
  match evs with
  | [] => Normal w
  | ev :: rest => let* w' := on_event ev w in run rest w'
  end.

(** Handlers only, for properties that do not mention the store. *)
Definition handle_all (evs : list Event) (s : State) : State :=
  fold_left (fun acc ev => dispatch ev acc) evs s.

End FlexibleScreen.

(* ===================================================================== *)
(** ** A small JSON codec for concrete runs                               *)
(* ===================================================================== *)

(** A printer and a parser for flat objects whose values are integers or
    [null], without white space: enough to run the component on concrete
    stores. The printer writes [null] for any other value. The properties
    below are proved for every codec. *)
Module Sample.

Definition quote : string := String "034"%char EmptyString.

Definition print_value (v : JSValue) : string :=
  match v with
  | JSnumber (Fin (z # 1)) => NilZero.string_of_int (Z.to_int z)
  | _ => "null"
  end.

Fixpoint print_members (props : list (string * JSValue)) : string :=
  match props with
  | [] => EmptyString
  | [(k, v)] => quote ++ k ++ quote ++ ":" ++ print_value v
  | (k, v) :: rest =>
      quote ++ k ++ quote ++ ":" ++ print_value v ++ "," ++ print_members rest
  end.

Definition stringify (v : JSValue) : string :=
  match v with
  | JSobject props => "{" ++ print_members props ++ "}"
  | _ => print_value v
  end.

Fixpoint split_on (sep : ascii) (s : string) : list string :=
  match s with
  | EmptyString => [EmptyString]
  | String c rest =>
      if Ascii.eqb c sep then EmptyString :: split_on sep rest
      else match split_on sep rest with
           | [] => [String c EmptyString]
           | w :: ws => String c w :: ws
           end
  end.

Definition parse_value (s : string) : option JSValue :=
  if String.eqb s "null" then Some JSnull
  else option_map (fun i => JSnumber (num (Z.of_int i))) (NilZero.int_of_string s).

Definition parse_key (s : string) : option string :=
  let n := String.length s in
  if (2 <=? n)%nat
     && String.eqb (substring 0 1 s) quote
     && String.eqb (substring (n - 1) 1 s) quote
  then Some (substring 1 (n - 2) s) else None.

Definition parse_member (s : string) : option (string * JSValue) :=
  match split_on ":" s with
  | [k; v] =>
      match parse_key k, parse_value v with
      | Some k', Some v' => Some (k', v')
      | _, _ => None
      end
  | _ => None
  end.

Fixpoint parse_members (l : list string) : option (list (string * JSValue)) :=
  match l with
  | [] => Some []
  | m :: rest =>
      match parse_member m, parse_members rest with
      | Some kv, Some kvs => Some (kv :: kvs)
      | _, _ => None
      end
  end.

Definition parse (text : string) : Completion JSValue :=
  let n := String.length text in
  if (2 <=? n)%nat
     && String.eqb (substring 0 1 text) "{"
     && String.eqb (substring (n - 1) 1 text) "}"
  then
    let inner := substring 1 (n - 2) text in
    if String.eqb inner EmptyString then Normal (JSobject [])
    else match parse_members (split_on "," inner) with
         | Some kvs => Normal (JSobject kvs)
         | None => Throw SyntaxError
         end
  else
    match parse_value text with
    | Some v => Normal v
    | None => Throw SyntaxError
    end.

(** An empty, working storage area. *)
Definition empty_storage : Storage :=
  {| items := ∅; denied := false; full := false |}.

Definition storage_with (key value : string) : Storage :=
  {| items := {[ key := value ]}; denied := false; full := false |}.

End Sample.

(* ===================================================================== *)
(** ** Vocabulary of the specification                                    *)
(* ===================================================================== *)

(** The closed interval [[lo, hi]]. *)
Definition within (lo hi v : number) : bool := leb lo v && leb v hi.

(** The clamp ranges of the two ratios. *)
Definition top_in_range (props : FlexibleScreenProps) (s : State) : bool :=
  within (minTopPct props) (num 100 - minBottomPct props)%js (topPct s).

Definition left_in_range (props : FlexibleScreenProps) (s : State) : bool :=
  within (minLeftPct props) (num 100 - minRightPct props)%js (leftPct s).

Definition in_range (props : FlexibleScreenProps) (s : State) : bool :=
  top_in_range props s && left_in_range props s.

(** Neither clamp range is empty: the configuration invariant
    [minTopPct + minBottomPct <= 100], [minLeftPct + minRightPct <= 100]. *)
Definition ranges_ok (props : FlexibleScreenProps) : bool :=
  leb (minTopPct props) (num 100 - minBottomPct props)%js
  && leb (minLeftPct props) (num 100 - minRightPct props)%js.


(** A rectangle side that can be measured: finite origin, finite and
    non-zero extent. *)
Definition measurable (origin size : number) : bool :=
  isFinite origin && isFinite size && negb (same size (num 0)).

(** A pointer move whose two consulted rectangles can be measured. *)
Definition measurable_move (e : PointerEvent) (g : Geometry) : bool :=
  isFinite (clientX e) && isFinite (clientY e)
  && measurable (rect_left (topAreaRect g)) (rect_width (topAreaRect g))
  && measurable (rect_top (containerRect g)) (rect_height (containerRect g)).

(** Events whose handler writes through [clamp] or writes nothing: all
    but the [Home] key, pointer moves over measurable rectangles only. *)
Definition clamped_event (ev : Event) : bool :=
  match ev with
  | KeyDown _ key => negb (String.eqb key "Home")
  | PointerMove e g => measurable_move e g
  | _ => true
  end.

(** All optional properties absent. *)
Definition defaultProps : FlexibleScreenProps :=
  {| prop_minTopPct := None; prop_minBottomPct := None;
     prop_minLeftPct := None; prop_minRightPct := None;
     prop_initial := None; prop_storageKey := None |}.

(** The properties [App] passes. *)
Definition appProps : FlexibleScreenProps :=
  {| prop_minTopPct := Some (num 20); prop_minBottomPct := Some (num 20);
     prop_minLeftPct := Some (num 15); prop_minRightPct := Some (num 15);
     prop_initial := Some {| initial_topPct := Some (num 70);
                             initial_leftPct := Some (num 50) |};
     prop_storageKey := Some "flexible-screen-layout"%string |}.

Definition square (left top width height : Z) : DOMRect :=
  {| rect_left := num left; rect_top := num top;
     rect_width := num width; rect_height := num height |}.

(* ===================================================================== *)
(** ** Concrete configurations, states and events                         *)
(* ===================================================================== *)

Definition state_at (t l : Z) (drag : option DragType) : State :=
  {| topPct := num t; leftPct := num l; dragRef := drag;
     select_none := match drag with Some _ => true | None => false end |}.

Definition pointer_at (x y : Z) : PointerEvent :=
  {| clientX := num x; clientY := num y |}.

(** A surface of 1000 by 800 at the origin whose top region starts 100
    to the right and is 400 wide. *)
Definition sample_geometry : Geometry :=
  {| containerRect := square 0 0 1000 800;
     topAreaRect := square 100 0 400 520 |}.

(** A surface collapsed to nothing. *)
Definition collapsed_geometry : Geometry :=
  {| containerRect := square 0 0 0 0; topAreaRect := square 0 0 0 0 |}.

(** Lower bounds asking for more than the whole width. *)
Definition overlappingProps : FlexibleScreenProps :=
  {| prop_minTopPct := None; prop_minBottomPct := None;
     prop_minLeftPct := Some (num 60); prop_minRightPct := Some (num 60);
     prop_initial := None; prop_storageKey := None |}.

(** Lower bounds above the [Home] positions: [leftPct] in [[60, 85]],
    [topPct] in [[70, 80]]. *)
Definition highMinProps : FlexibleScreenProps :=
  {| prop_minTopPct := Some (num 70); prop_minBottomPct := None;
     prop_minLeftPct := Some (num 60); prop_minRightPct := None;
     prop_initial := None; prop_storageKey := None |}.

(** Default bounds, initial ratios 95 and 5, no storage key. *)
Definition wideInitialProps : FlexibleScreenProps :=
  {| prop_minTopPct := None; prop_minBottomPct := None;
     prop_minLeftPct := None; prop_minRightPct := None;
     prop_initial := Some {| initial_topPct := Some (num 95);
                             initial_leftPct := Some (num 5) |};
     prop_storageKey := None |}.

Definition keyedProps : FlexibleScreenProps :=
  {| prop_minTopPct := None; prop_minBottomPct := None;
     prop_minLeftPct := None; prop_minRightPct := None;
     prop_initial := None; prop_storageKey := Some "k"%string |}.

Fixpoint repeat_key (n : nat) (handle : DragType) (key : string) : list Event :=
  match n with
  | O => []
  | S n' => KeyDown handle key :: repeat_key n' handle key
  end.

(** A store that refuses every write. *)
Definition full_storage : Storage :=
  {| items := ∅; denied := false; full := true |}.

Definition nan_left_state : State :=
  {| topPct := num 65; leftPct := NaN; dragRef := Some vertical; select_none := true |}.

Definition sample_events : list Event :=
  [PointerDown vertical;
   PointerMove (pointer_at 300 200) sample_geometry;
   PointerUp;
   KeyDown horizontal "ArrowDown";
   KeyDown vertical "PageUp"].

(** A store that takes reads and writes. *)
Definition working (st : Storage) : bool := negb (denied st) && negb (full st).


(** The state the component starts in when nothing usable is stored. *)
Definition fallback_state (props : FlexibleScreenProps) : State :=
  {| topPct := default (num 65) (initial_topPct (initial props));
     leftPct := default (num 50) (initial_leftPct (initial props));
     dragRef := None; select_none := false |}.

(** Pointer traffic that starts no drag: moves, releases and cancels. *)
Definition passive_event (ev : Event) : bool :=
  match ev with
  | PointerMove _ _ | PointerUp | PointerCancel => true
  | _ => false
  end.

(** The value of a computation that completed, [d] if it threw. *)
Definition outcome {A} (c : Completion A) (d : A) : A :=
  match c with
  | Normal a => a
  | Throw _ => d
  end.

(** A store that denies every access. *)
Definition denied_storage : Storage :=
  {| items := {[ "k"%string := "not json"%string ]}; denied := true; full := false |}.

(** A working store holding an item of another application. *)
Definition shared_storage : Storage :=
  {| items := {[ "theme"%string := "dark"%string ]}; denied := false; full := false |}.

(** A store holding one layout, serialized by the sample codec. *)
Definition stored_layout (key : string) (t l : Z) : Storage :=
  Sample.storage_with key (Sample.stringify (layout_value (num t) (num l))).

(** *** Three sentences of the specification, as they are written

    Each is refuted below. *)

(** "For all sequences of drag/keyboard operations, [topPct] always remains
    in [[minTopPct, 100-minBottomPct]] and [leftPct] in
    [[minLeftPct, 100-minRightPct]]", for a configuration that respects
    the configuration invariant. *)
Definition clamp_invariant_as_stated : Prop :=
  forall JSON_parse JSON_stringify props st evs w w',
    ranges_ok props = true ->
    mount JSON_parse JSON_stringify props st = Normal w ->
    run JSON_stringify props evs w = Normal w' ->
    in_range props (fst w') = true.


(** "A range where min > max collapses to min, pinning the divider." *)
Definition empty_range_as_stated : Prop :=
  forall props key s,
    ltb (num 100 - minRightPct props)%js (minLeftPct props) = true ->
    isNaN (leftPct s) = false ->
    key = "ArrowLeft"%string \/ key = "ArrowRight"%string ->
    leftPct (handleVerticalKey props key s) ≡ₙ minLeftPct props.

(* ===================================================================== *)
(** ** The percentage on binary64 numbers                                 *)
(* ===================================================================== *)

(** The arithmetic of the vertical branch of [onPointerMove] on IEEE
    doubles, with the rounding the exact model leaves out, beside the
    expression the specification writes. *)
Module Binary64.

Import PrimFloat.

Definition Math_max (a b : float) : float :=
  if is_nan a || is_nan b then nan else if ltb a b then b else a.

Definition Math_min (a b : float) : float :=
  if is_nan a || is_nan b then nan else if ltb b a then b else a.

Definition clamp (v min max : float) : float :=
  Math_min (Math_max v min) max.



End Binary64.

(* ===================================================================== *)
(** ** Facts about numbers and [clamp]                                    *)
(* ===================================================================== *)

Section NumberFacts.

#[local] Arguments Qcompare : simpl never.

Lemma leb_Fin x y : leb (Fin x) (Fin y) = true <-> x <= y.
Proof.
  simpl. rewrite Qle_alt. destruct (x ?= y); split; congruence.
Qed.

Lemma ltb_Fin x y : ltb (Fin x) (Fin y) = true <-> x < y.
Proof.
  simpl. rewrite Qlt_alt. destruct (x ?= y); split; congruence.
Qed.

Lemma leb_ltb_leb_absurd a b c :
  leb a b = true -> ltb b c = true -> leb c a = true -> False.
Proof.
  destruct a, b, c; try (simpl; discriminate).
  rewrite !leb_Fin, ltb_Fin. intros H1 H2 H3.
  apply (Qlt_irrefl q0). eapply Qlt_le_trans; [eassumption |].
  eapply Qle_trans; eassumption.
Qed.

Lemma eqv_refl a : a ≡ₙ a.
Proof. destruct a; simpl; auto. reflexivity. Qed.

Lemma eqv_sym a b : a ≡ₙ b -> b ≡ₙ a.
Proof. destruct a, b; simpl; auto. intros H; symmetry; exact H. Qed.

Lemma eqv_trans a b c : a ≡ₙ b -> b ≡ₙ c -> a ≡ₙ c.
Proof.
  destruct a, b, c; simpl; auto; try contradiction.
  intros H1 H2; rewrite H1; exact H2.
Qed.

Lemma eqv_of_eq a b : a = b -> a ≡ₙ b.
Proof. intros ->; apply eqv_refl. Qed.

Lemma same_eqv a b : same a b = true <-> a ≡ₙ b.
Proof.
  destruct a, b; simpl; try (split; [discriminate | contradiction]);
    try (split; auto).
  - apply Qeq_bool_eq.
  - apply Qeq_eq_bool.
Qed.

Lemma same_refl a : same a a = true.
Proof. apply same_eqv, eqv_refl. Qed.

Lemma leb_refl a : isNaN a = false -> leb a a = true.
Proof.
  destruct a; simpl; try congruence.
  intros _. rewrite (proj1 (Qeq_alt q q) (Qeq_refl q)). reflexivity.
Qed.

(** On numbers other than [NaN] the order is total. *)
Lemma ltb_false_leb a b :
  isNaN a = false -> isNaN b = false -> ltb a b = false -> leb b a = true.
Proof.
  destruct a, b; simpl; try congruence.
  intros _ _. rewrite <- (Qcompare_antisym q q0).
  destruct (q ?= q0); simpl; congruence.
Qed.

Lemma ltb_true_leb a b : ltb a b = true -> leb a b = true.
Proof.
  destruct a, b; simpl; try congruence.
  destruct (q ?= q0); congruence.
Qed.

Lemma ltb_leb_false a b : ltb a b = true -> leb b a = false.
Proof.
  destruct a, b; simpl; try congruence.
  rewrite <- (Qcompare_antisym q q0).
  destruct (q ?= q0); simpl; congruence.
Qed.

Lemma leb_not_NaN a b : leb a b = true -> isNaN a = false /\ isNaN b = false.
Proof. destruct a, b; simpl; auto; discriminate. Qed.

Lemma ltb_not_NaN a b : ltb a b = true -> isNaN a = false /\ isNaN b = false.
Proof. destruct a, b; simpl; auto; discriminate. Qed.

Lemma leb_ltb_false a b : leb a b = true -> ltb b a = false.
Proof.
  destruct a, b; simpl; try congruence.
  rewrite <- (Qcompare_antisym q q0).
  destruct (q ?= q0); simpl; congruence.
Qed.

Lemma ltb_eqv a a' b b' : a ≡ₙ a' -> b ≡ₙ b' -> ltb a b = ltb a' b'.
Proof.
  destruct a, a'; simpl; try contradiction; destruct b, b'; simpl;
    try contradiction; auto.
  intros Ha Hb. rewrite Ha, Hb. reflexivity.
Qed.

Lemma leb_eqv a a' b b' : a ≡ₙ a' -> b ≡ₙ b' -> leb a b = leb a' b'.
Proof.
  destruct a, a'; simpl; try contradiction; destruct b, b'; simpl;
    try contradiction; auto.
  intros Ha Hb. rewrite Ha, Hb. reflexivity.
Qed.

Lemma isNaN_eqv a a' : a ≡ₙ a' -> isNaN a = isNaN a'.
Proof. destruct a, a'; simpl; auto; contradiction. Qed.

Lemma Math_max_eqv a a' b b' :
  a ≡ₙ a' -> b ≡ₙ b' -> Math_max a b ≡ₙ Math_max a' b'.
Proof.
  intros Ha Hb. unfold Math_max.
  rewrite (isNaN_eqv _ _ Ha), (isNaN_eqv _ _ Hb), (ltb_eqv _ _ _ _ Ha Hb).
  destruct (isNaN a' || isNaN b'); [exact I |].
  destruct (ltb a' b'); assumption.
Qed.

Lemma Math_min_eqv a a' b b' :
  a ≡ₙ a' -> b ≡ₙ b' -> Math_min a b ≡ₙ Math_min a' b'.
Proof.
  intros Ha Hb. unfold Math_min.
  rewrite (isNaN_eqv _ _ Ha), (isNaN_eqv _ _ Hb), (ltb_eqv _ _ _ _ Hb Ha).
  destruct (isNaN a' || isNaN b'); [exact I |].
  destruct (ltb b' a'); assumption.
Qed.

Lemma clamp_eqv v v' lo hi : v ≡ₙ v' -> clamp v lo hi ≡ₙ clamp v' lo hi.
Proof.
  intros Hv. unfold clamp.
  apply Math_min_eqv; [| apply eqv_refl].
  apply Math_max_eqv; [assumption | apply eqv_refl].
Qed.

(** [Math.max] and [Math.min] return one of their arguments. *)
Lemma Math_max_spec a b :
  isNaN a = false -> isNaN b = false ->
  (Math_max a b = a /\ leb b a = true) \/ (Math_max a b = b /\ ltb a b = true).
Proof.
  intros Ha Hb. unfold Math_max. rewrite Ha, Hb. simpl.
  destruct (ltb a b) eqn:E; [right; auto | left; split; auto].
  apply ltb_false_leb; assumption.
Qed.

Lemma Math_min_spec a b :
  isNaN a = false -> isNaN b = false ->
  (Math_min a b = a /\ leb a b = true) \/ (Math_min a b = b /\ ltb b a = true).
Proof.
  intros Ha Hb. unfold Math_min. rewrite Ha, Hb. simpl.
  destruct (ltb b a) eqn:E; [right; auto | left; split; auto].
  apply ltb_false_leb; assumption.
Qed.

Lemma within_not_NaN lo hi v : within lo hi v = true -> isNaN v = false.
Proof.
  unfold within. intros H. apply andb_true_iff in H as [H _].
  apply leb_not_NaN in H. tauto.
Qed.

(** With a non-empty range, clamping anything but [NaN] lands in it. *)
Lemma clamp_within v lo hi :
  leb lo hi = true -> isNaN v = false -> within lo hi (clamp v lo hi) = true.
Proof.
  intros Hr Hv. destruct (leb_not_NaN _ _ Hr) as [Hlo Hhi].
  unfold clamp, within.
  destruct (Math_max_spec v lo Hv Hlo) as [[-> Hm] | [-> Hm]].
  - destruct (Math_min_spec v hi Hv Hhi) as [[-> Hn] | [-> Hn]].
    + rewrite Hm, Hn. reflexivity.
    + rewrite Hr, (leb_refl hi Hhi). reflexivity.
  - destruct (Math_min_spec lo hi Hlo Hhi) as [[-> Hn] | [-> Hn]].
    + rewrite (leb_refl lo Hlo), Hn. reflexivity.
    + rewrite Hr, (leb_refl hi Hhi). reflexivity.
Qed.

(** A value already in the range is returned as it is. *)
Lemma clamp_fixed v lo hi : within lo hi v = true -> clamp v lo hi = v.
Proof.
  unfold within. intros H. apply andb_true_iff in H as [H1 H2].
  destruct (leb_not_NaN _ _ H1) as [Hlo Hv].
  destruct (leb_not_NaN _ _ H2) as [_ Hhi].
  unfold clamp, Math_max. rewrite Hv, Hlo. simpl.
  rewrite (leb_ltb_false _ _ H1).
  unfold Math_min. rewrite Hv, Hhi. simpl.
  rewrite (leb_ltb_false _ _ H2). reflexivity.
Qed.

(** An empty range ([hi < lo]) sends every number to its upper end. *)
Lemma clamp_empty_range v lo hi :
  ltb hi lo = true -> isNaN v = false -> clamp v lo hi = hi.
Proof.
  intros Hr Hv. destruct (ltb_not_NaN _ _ Hr) as [Hhi Hlo].
  unfold clamp.
  destruct (Math_max_spec v lo Hv Hlo) as [[-> Hm] | [-> Hm]].
  - unfold Math_min. rewrite Hv, Hhi. simpl.
    destruct (ltb hi v) eqn:E; [reflexivity |].
    apply ltb_false_leb in E; try assumption.
    exfalso. exact (leb_ltb_leb_absurd _ _ _ E Hr Hm).
  - unfold Math_min. rewrite Hlo, Hhi. simpl. rewrite Hr. reflexivity.
Qed.

(** X1. Clamping twice with the same bounds is clamping once (property 2
    of the specification), for every value and every pair of bounds,
    [NaN] and empty ranges included. *)
Lemma clamp_idempotent v lo hi : clamp (clamp v lo hi) lo hi = clamp v lo hi.
Proof.
  destruct (isNaN v) eqn:Hv; [destruct v; try discriminate; reflexivity |].
  destruct (isNaN lo) eqn:Hlo; [destruct lo; try discriminate; destruct v; reflexivity |].
  destruct (isNaN hi) eqn:Hhi.
  { destruct hi; try discriminate. unfold clamp, Math_min.
    rewrite !orb_true_r. reflexivity. }
  destruct (leb lo hi) eqn:Hr.
  - apply clamp_fixed, clamp_within; assumption.
  - assert (ltb hi lo = true) as Hlt.
    { destruct (ltb hi lo) eqn:E; [reflexivity |].
      apply ltb_false_leb in E; congruence. }
    rewrite (clamp_empty_range v lo hi Hlt Hv).
    apply clamp_empty_range; assumption.
Qed.


End NumberFacts.

(* ===================================================================== *)
(** ** Facts about the percentage arithmetic                              *)
(* ===================================================================== *)

Section ArithmeticFacts.

#[local] Arguments Qcompare : simpl never.
#[local] Arguments Qred : simpl never.



Lemma sub_finite a b : isFinite a = true -> isFinite b = true ->
  isFinite (a - b)%js = true.
Proof. destruct a, b; simpl; congruence. Qed.

Lemma div_finite a b :
  isFinite a = true -> isFinite b = true -> same b (num 0) = false ->
  isFinite (a / b)%js = true.
Proof.
  destruct a as [| | x |], b as [| | y |]; cbn [isFinite div]; try congruence.
  intros _ _ Hz. destruct (Qsign y) eqn:Sy; try reflexivity.
  exfalso. unfold Qsign in Sy. apply Qeq_alt in Sy. apply Qeq_eq_bool in Sy.
  unfold num in Hz. cbn [same] in Hz. change (inject_Z 0) with 0 in Hz.
  congruence.
Qed.

Lemma mul_finite a b : isFinite a = true -> isFinite b = true ->
  isFinite (a * b)%js = true.
Proof. destruct a, b; simpl; congruence. Qed.

Lemma finite_not_NaN a : isFinite a = true -> isNaN a = false.
Proof. destruct a; simpl; congruence. Qed.

Lemma shift_not_NaN a z : isNaN a = false ->
  isNaN (a - num z)%js = false /\ isNaN (a + num z)%js = false.
Proof. destruct a; simpl; try congruence; auto. Qed.

(** Over a measurable side the computed percentage is a finite number. *)
Lemma pct_finite pointer origin size :
  isFinite pointer = true -> measurable origin size = true ->
  isFinite ((pointer - origin) / size * num 100)%js = true.
Proof.
  unfold measurable. intros Hp H.
  apply andb_true_iff in H as [H Hz]. apply andb_true_iff in H as [Ho Hs].
  apply negb_true_iff in Hz.
  apply mul_finite; [| reflexivity].
  apply div_finite; try assumption. apply sub_finite; assumption.
Qed.





End ArithmeticFacts.

(* ===================================================================== *)
(** ** Pointer moves                                                      *)
(* ===================================================================== *)

Section PointerMoves.

Variable JSON_stringify : JSValue -> string.
Variable props : FlexibleScreenProps.

Lemma deps_unchanged s : deps_changed s s = false.
Proof. unfold deps_changed. rewrite !same_refl. reflexivity. Qed.

Lemma onPointerMove_idle e g s : dragRef s = None -> onPointerMove props e g s = s.
Proof. intros H. unfold onPointerMove. rewrite H. reflexivity. Qed.

Lemma onPointerMove_vertical e g s :
  dragRef s = Some vertical ->
  onPointerMove props e g s
  = with_leftPct
      (clamp ((clientX e - rect_left (topAreaRect g))
              / rect_width (topAreaRect g) * num 100)%js
             (minLeftPct props) (num 100 - minRightPct props)%js) s.
Proof. intros H. unfold onPointerMove. rewrite H. reflexivity. Qed.

Lemma onPointerMove_horizontal e g s :
  dragRef s = Some horizontal ->
  onPointerMove props e g s
  = with_topPct
      (clamp ((clientY e - rect_top (containerRect g))
              / rect_height (containerRect g) * num 100)%js
             (minTopPct props) (num 100 - minBottomPct props)%js) s.
Proof. intros H. unfold onPointerMove. rewrite H. reflexivity. Qed.

(** C9. A pointer move that arrives while no drag is active changes
    nothing: the handler returns the state as it is, so [topPct] and
    [leftPct] keep their values, and the store is not written. *)
Theorem pointer_move_while_idle_is_noop e g (w : State * Storage) :
  dragRef (fst w) = None ->
  onPointerMove props e g (fst w) = fst w
  /\ on_event JSON_stringify props (PointerMove e g) w = Normal w.
Proof.
  intros H. split; [apply onPointerMove_idle; exact H |].
  unfold on_event. cbn [dispatch]. rewrite (onPointerMove_idle _ _ _ H).
  rewrite deps_unchanged. destruct w; reflexivity.
Qed.

(** C10. During a drag a pointer move writes only the ratio of the
    session's axis: a vertical-axis move leaves [topPct] as it was and a
    horizontal-axis move leaves [leftPct] as it was, whatever the
    pointer position and the rectangles. *)
Theorem pointer_move_keeps_other_ratio e g s type :
  dragRef s = Some type ->
  match type with
  | vertical => topPct (onPointerMove props e g s) = topPct s
  | horizontal => leftPct (onPointerMove props e g s) = leftPct s
  end.
Proof.
  intros H. destruct type.
  - rewrite (onPointerMove_horizontal _ _ _ H). reflexivity.
  - rewrite (onPointerMove_vertical _ _ _ H). reflexivity.
Qed.



End PointerMoves.

(* ===================================================================== *)
(** ** Keyboard, empty ranges and the clamp invariant                     *)
(* ===================================================================== *)

Section Keyboard.

Variable JSON_stringify : JSValue -> string.
Variable props : FlexibleScreenProps.

(** What each key does on the vertical-divider handle. *)
Lemma handleVerticalKey_spec s :
  handleVerticalKey props "ArrowLeft" s
  = with_leftPct (clamp (leftPct s - num 2)%js
                        (minLeftPct props) (num 100 - minRightPct props)%js) s
  /\ handleVerticalKey props "ArrowRight" s
     = with_leftPct (clamp (leftPct s + num 2)%js
                           (minLeftPct props) (num 100 - minRightPct props)%js) s
  /\ handleVerticalKey props "Home" s = with_leftPct (num 50) s.
Proof. repeat split. Qed.

(** What each key does on the horizontal-divider handle. *)
Lemma handleHorizontalKey_spec s :
  handleHorizontalKey props "ArrowUp" s
  = with_topPct (clamp (topPct s - num 2)%js
                       (minTopPct props) (num 100 - minBottomPct props)%js) s
  /\ handleHorizontalKey props "ArrowDown" s
     = with_topPct (clamp (topPct s + num 2)%js
                          (minTopPct props) (num 100 - minBottomPct props)%js) s
  /\ handleHorizontalKey props "Home" s = with_topPct (num 66) s.
Proof. repeat split. Qed.

(** Keys a handle does not handle leave the state as it is. *)
Lemma handleVerticalKey_other key s :
  key <> "ArrowLeft"%string -> key <> "ArrowRight"%string -> key <> "Home"%string ->
  handleVerticalKey props key s = s.
Proof.
  intros H1 H2 H3. unfold handleVerticalKey.
  apply String.eqb_neq in H1, H2, H3. rewrite H1, H2, H3. reflexivity.
Qed.

Lemma handleHorizontalKey_other key s :
  key <> "ArrowUp"%string -> key <> "ArrowDown"%string -> key <> "Home"%string ->
  handleHorizontalKey props key s = s.
Proof.
  intros H1 H2 H3. unfold handleHorizontalKey.
  apply String.eqb_neq in H1, H2, H3. rewrite H1, H2, H3. reflexivity.
Qed.

Lemma measurable_move_parts e g :
  measurable_move e g = true ->
  isFinite (clientX e) = true /\ isFinite (clientY e) = true
  /\ measurable (rect_left (topAreaRect g)) (rect_width (topAreaRect g)) = true
  /\ measurable (rect_top (containerRect g)) (rect_height (containerRect g)) = true.
Proof.
  unfold measurable_move. intros H.
  repeat (apply andb_true_iff in H as [H ?]). auto.
Qed.

(** C6 (as the code has it). When a clamp range is empty, its lower end
    above its upper end, every write that goes through [clamp] lands on
    the upper end [100 - minRightPct] (resp. [100 - minBottomPct]): the
    two arrow keys from a ratio that is a number, and every pointer move
    over measurable rectangles. *)
Theorem empty_range_pins_to_upper_end s :
  (ltb (num 100 - minRightPct props)%js (minLeftPct props) = true ->
     (isNaN (leftPct s) = false ->
        leftPct (handleVerticalKey props "ArrowLeft" s) = (num 100 - minRightPct props)%js
        /\ leftPct (handleVerticalKey props "ArrowRight" s) = (num 100 - minRightPct props)%js)
     /\ (forall e g, dragRef s = Some vertical -> measurable_move e g = true ->
           leftPct (onPointerMove props e g s) = (num 100 - minRightPct props)%js))
  /\ (ltb (num 100 - minBottomPct props)%js (minTopPct props) = true ->
        (isNaN (topPct s) = false ->
           topPct (handleHorizontalKey props "ArrowUp" s) = (num 100 - minBottomPct props)%js
           /\ topPct (handleHorizontalKey props "ArrowDown" s) = (num 100 - minBottomPct props)%js)
        /\ (forall e g, dragRef s = Some horizontal -> measurable_move e g = true ->
              topPct (onPointerMove props e g s) = (num 100 - minBottomPct props)%js)).
Proof.
  split; intros Hr; split.
  - intros Hv. destruct (shift_not_NaN _ 2 Hv) as [Hm Hp].
    split; cbn [handleVerticalKey String.eqb Ascii.eqb Bool.eqb with_leftPct leftPct];
      apply clamp_empty_range; assumption.
  - intros e g Hd Hm. rewrite (onPointerMove_vertical _ _ _ _ Hd).
    cbn [with_leftPct leftPct]. apply clamp_empty_range; [exact Hr |].
    destruct (measurable_move_parts _ _ Hm) as (Hx & _ & Hrect & _).
    apply finite_not_NaN, pct_finite; assumption.
  - intros Hv. destruct (shift_not_NaN _ 2 Hv) as [Hm Hp].
    split; cbn [handleHorizontalKey String.eqb Ascii.eqb Bool.eqb with_topPct topPct];
      apply clamp_empty_range; assumption.
  - intros e g Hd Hm. rewrite (onPointerMove_horizontal _ _ _ _ Hd).
    cbn [with_topPct topPct]. apply clamp_empty_range; [exact Hr |].
    destruct (measurable_move_parts _ _ Hm) as (_ & Hy & _ & Hrect).
    apply finite_not_NaN, pct_finite; assumption.
Qed.

(** The stored layout cannot make the effect throw. *)
Lemma persist_total s st : exists st', persist JSON_stringify props s st = Normal st'.
Proof.
  unfold persist. destruct (storageKey props); [| eauto].
  destruct (setItem _ _ _); simpl; eauto.
Qed.

Lemma on_event_total ev w :
  exists st', on_event JSON_stringify props ev w = Normal (dispatch props ev (fst w), st').
Proof.
  unfold on_event. destruct (deps_changed _ _); [| eauto].
  destruct (persist_total (dispatch props ev (fst w)) (snd w)) as [st' ->].
  simpl. eauto.
Qed.

Lemma in_range_parts s :
  in_range props s = true <->
  within (minTopPct props) (num 100 - minBottomPct props)%js (topPct s) = true
  /\ within (minLeftPct props) (num 100 - minRightPct props)%js (leftPct s) = true.
Proof. unfold in_range, top_in_range, left_in_range. apply andb_true_iff. Qed.

(** One clamped event keeps both ratios in range. *)
Lemma dispatch_in_range ev s :
  ranges_ok props = true -> in_range props s = true -> clamped_event ev = true ->
  in_range props (dispatch props ev s) = true.
Proof.
  intros Hr Hs Hev. unfold ranges_ok in Hr.
  apply andb_true_iff in Hr as [Htop Hleft].
  apply in_range_parts in Hs as [Ht Hl]. apply in_range_parts.
  pose proof (within_not_NaN _ _ _ Ht) as Htn.
  pose proof (within_not_NaN _ _ _ Hl) as Hln.
  destruct ev as [type | e g | | | type key]; cbn [dispatch].
  - split; assumption.
  - cbn [clamped_event] in Hev.
    destruct (measurable_move_parts _ _ Hev) as (Hx & Hy & Hw & Hh).
    unfold onPointerMove. destruct (dragRef s) as [[|]|];
      cbn [with_topPct with_leftPct topPct leftPct]; split; try assumption.
    + apply clamp_within; [exact Htop |]. apply finite_not_NaN, pct_finite; assumption.
    + apply clamp_within; [exact Hleft |]. apply finite_not_NaN, pct_finite; assumption.
  - split; assumption.
  - split; assumption.
  - cbn [clamped_event] in Hev. apply negb_true_iff in Hev.
    destruct (shift_not_NaN _ 2 Htn) as [Htm Htp].
    destruct (shift_not_NaN _ 2 Hln) as [Hlm Hlp].
    destruct type.
    + unfold handleHorizontalKey. rewrite Hev.
      destruct (String.eqb key "ArrowUp"); [| destruct (String.eqb key "ArrowDown")];
        cbn [with_topPct topPct leftPct]; split; try assumption;
        apply clamp_within; assumption.
    + unfold handleVerticalKey. rewrite Hev.
      destruct (String.eqb key "ArrowLeft"); [| destruct (String.eqb key "ArrowRight")];
        cbn [with_leftPct topPct leftPct]; split; try assumption;
        apply clamp_within; assumption.
Qed.

Lemma run_in_range evs (w : State * Storage) :
  ranges_ok props = true ->
  in_range props (fst w) = true ->
  forallb clamped_event evs = true ->
  exists w', run JSON_stringify props evs w = Normal w'
             /\ in_range props (fst w') = true.
Proof.
  intros Hr. revert w. induction evs as [| ev evs IH]; intros w Hw Hevs.
  - exists w. split; [reflexivity | exact Hw].
  - cbn [forallb] in Hevs. apply andb_true_iff in Hevs as [Hev Hevs].
    destruct (on_event_total ev w) as [st' Hstep].
    cbn [run]. rewrite Hstep. cbn [bind].
    apply IH; [| exact Hevs].
    cbn [fst]. apply dispatch_in_range; assumption.
Qed.

Lemma forallb_firstn {A} (f : A -> bool) n l :
  forallb f l = true -> forallb f (firstn n l) = true.
Proof.
  revert n. induction l as [| a l IH]; intros [| n] H; try reflexivity.
  cbn [firstn forallb] in *. apply andb_true_iff in H as [Ha Hl].
  rewrite Ha, (IH n Hl). reflexivity.
Qed.

(** C1 (as the code has it). With non-empty clamp ranges and a state
    whose two ratios are in range, every sequence of pointer-down,
    pointer-up and pointer-cancel events, pointer moves over measurable
    rectangles and key presses other than [Home] runs to completion,
    and after each of its events [topPct] is within
    [[minTopPct, 100 - minBottomPct]] and [leftPct] within
    [[minLeftPct, 100 - minRightPct]]. *)
Theorem clamp_invariant evs (w : State * Storage) n :
  ranges_ok props = true ->
  in_range props (fst w) = true ->
  forallb clamped_event evs = true ->
  exists w', run JSON_stringify props (firstn n evs) w = Normal w'
             /\ in_range props (fst w') = true.
Proof.
  intros Hr Hw Hevs. apply run_in_range; try assumption.
  apply forallb_firstn. exact Hevs.
Qed.

End Keyboard.

(* ===================================================================== *)
(** ** Stored layout: reading, seeding and persisting                     *)
(* ===================================================================== *)

Section Persistence.

Variable JSON_parse : string -> Completion JSValue.
Variable JSON_stringify : JSValue -> string.
Variable props : FlexibleScreenProps.

(** Reading the stored layout never throws. *)
Lemma readStored_total st : exists r, readStored JSON_parse props st = Normal r.
Proof.
  unfold readStored. destruct (storageKey props); [| eauto].
  match goal with |- exists r, try_catch ?b _ = _ => destruct b end; simpl; eauto.
Qed.

Lemma initialState_total st : exists s, initialState JSON_parse props st = Normal s.
Proof.
  unfold initialState. destruct (readStored_total st) as [r ->]. simpl. eauto.
Qed.

(** A stored value that parses to an object with two numbers is
    returned clamped. *)
Lemma readStored_valid st key text parsed t l :
  storageKey props = Some key ->
  denied st = false ->
  items st !! key = Some text ->
  text <> EmptyString ->
  JSON_parse text = Normal parsed ->
  optional_get parsed "topPct" = JSnumber t ->
  optional_get parsed "leftPct" = JSnumber l ->
  readStored JSON_parse props st
  = Normal (Some (clamp t (minTopPct props) (num 100 - minBottomPct props)%js,
                  clamp l (minLeftPct props) (num 100 - minRightPct props)%js)).
Proof.
  intros Hk Hd Hi Ht Hp Htop Hleft. unfold readStored, getItem.
  rewrite Hk, Hd, Hi. cbn [bind].
  apply String.eqb_neq in Ht. rewrite Ht, Hp. cbn [bind].
  rewrite Htop, Hleft. reflexivity.
Qed.

(** No key, no access, no item, or text that does not parse: nothing
    is read. *)
Lemma readStored_nothing st :
  match storageKey props with
  | None => True
  | Some key =>
      denied st = true \/ items st !! key = None
      \/ exists text, items st !! key = Some text
                      /\ exists e, JSON_parse text = Throw e
  end ->
  readStored JSON_parse props st = Normal None.
Proof.
  unfold readStored, getItem. destruct (storageKey props) as [key |]; [| reflexivity].
  intros [Hd | [Hi | (text & Hi & e & Hp)]].
  - rewrite Hd. reflexivity.
  - destruct (denied st); [reflexivity |]. rewrite Hi. reflexivity.
  - destruct (denied st); [reflexivity |]. rewrite Hi. cbn [bind].
    destruct (String.eqb text EmptyString); [reflexivity |].
    rewrite Hp. reflexivity.
Qed.

(** Without a stored layout the state is seeded from [initial], or from
    65 and 50, as they are. *)
Lemma initialState_fallback st :
  readStored JSON_parse props st = Normal None ->
  initialState JSON_parse props st
  = Normal {| topPct := default (num 65) (initial_topPct (initial props));
              leftPct := default (num 50) (initial_leftPct (initial props));
              dragRef := None; select_none := false |}.
Proof. intros H. unfold initialState. rewrite H. reflexivity. Qed.

(** C7. With a storage key set and a store that accepts the write, a
    state whose two ratios are in range, once persisted, is read back as
    it was by a fresh initialization from the same store: the seeded
    [topPct] and [leftPct] are exactly the persisted ones. [JSON.parse]
    is assumed to invert [JSON.stringify] on this layout. *)
Theorem persist_then_initialize s st key :
  storageKey props = Some key ->
  denied st = false -> full st = false ->
  in_range props s = true ->
  JSON_stringify (layout_value (topPct s) (leftPct s)) <> EmptyString ->
  JSON_parse (JSON_stringify (layout_value (topPct s) (leftPct s)))
  = Normal (layout_value (topPct s) (leftPct s)) ->
  exists st', persist JSON_stringify props s st = Normal st'
    /\ exists s', initialState JSON_parse props st' = Normal s'
         /\ topPct s' = topPct s /\ leftPct s' = leftPct s.
Proof.
  intros Hk Hd Hf Hr Hne Hp.
  apply in_range_parts in Hr as [Ht Hl].
  unfold persist, setItem. rewrite Hk, Hd, Hf. cbn [try_catch].
  eexists; split; [reflexivity |].
  unfold initialState.
  erewrite readStored_valid; try eassumption; try reflexivity.
  - cbn [bind]. eexists; split; [reflexivity |].
    cbn [topPct leftPct]. split; apply clamp_fixed; assumption.
  - cbn [items]. apply lookup_insert_eq.
Qed.


End Persistence.

(* ===================================================================== *)
(** ** Concrete runs                                                      *)
(* ===================================================================== *)

Example div_zero_pos : (num 10 / num 0)%js = PosInf.
Proof. reflexivity. Qed.
Example div_zero_zero : (num 0 / num 0)%js = NaN.
Proof. reflexivity. Qed.
Example geometry_sample : ((num 300 - num 100) / num 400 * num 100)%js = num 50.
Proof. reflexivity. Qed.

Example sample_print :
  Sample.parse (Sample.stringify (layout_value (num 70) (num 40)))
  = Normal (layout_value (num 70) (num 40)).
Proof. vm_compute. reflexivity. Qed.

Example sample_not_json : Sample.parse "not json" = Throw SyntaxError.
Proof. vm_compute. reflexivity. Qed.

(** Property 5 of the specification: five left-arrow presses from 50
    give 40, and [Home] gives 50 again. *)
Example keyboard_step_sample :
  leftPct (handle_all defaultProps (repeat_key 5 vertical "ArrowLeft")
                      (state_at 65 50 None)) = num 40
  /\ leftPct (handle_all defaultProps
                (repeat_key 5 vertical "ArrowLeft" ++ [KeyDown vertical "Home"])
                (state_at 65 50 None)) = num 50.
Proof. split; vm_compute; reflexivity. Qed.

(** Property 6 of the specification: a pointer at 300 over a top region
    400 wide starting at 100 gives 50. *)
Example drag_geometry_sample :
  leftPct (onPointerMove defaultProps (pointer_at 300 0) sample_geometry
                         (state_at 65 30 (Some vertical))) = num 50.
Proof. vm_compute. reflexivity. Qed.

(** Property 4 of the specification: text that is not JSON under the key
    gives the initial ratios, not an error. *)
Example corrupt_storage_sample :
  initialState Sample.parse keyedProps (Sample.storage_with "k" "not json")
  = Normal (state_at 65 50 None).
Proof. vm_compute. reflexivity. Qed.

(** A stored layout out of range is clamped when it is read. *)
Example stored_layout_clamped_sample :
  initialState Sample.parse keyedProps
    (Sample.storage_with "k" (Sample.stringify (layout_value (num 95) (num 5))))
  = Normal (state_at 80 15 None).
Proof. vm_compute. reflexivity. Qed.


(* ===================================================================== *)
(** ** Where the code departs from the specification                      *)
(* ===================================================================== *)

(** With the default bounds the component starts at 65 and 50, in range.
    A drag of the vertical divider while the surface is collapsed to zero
    width, the pointer on its left edge, computes [0 / 0] and writes
    [NaN] to [leftPct], which is in no range. *)
Example collapsed_drag_run :
  mount Sample.parse Sample.stringify defaultProps Sample.empty_storage
  = Normal (state_at 65 50 None, Sample.empty_storage)
  /\ in_range defaultProps (state_at 65 50 None) = true
  /\ run Sample.stringify defaultProps
         [PointerDown vertical; PointerMove (pointer_at 0 0) collapsed_geometry]
         (state_at 65 50 None, Sample.empty_storage)
     = Normal (nan_left_state, Sample.empty_storage)
  /\ in_range defaultProps nan_left_state = false.
Proof. repeat split; vm_compute; reflexivity. Qed.

(** C2: the [Home] key writes its constant without clamping. With
    [minLeftPct = 60] it sets [leftPct] to 50, below the range
    [[60, 85]], where clamping would give 60; with [minTopPct = 70] it
    sets [topPct] to 66, below [[70, 80]], where clamping would give 70. *)
Theorem home_key_bypasses_clamp :
  leftPct (handleVerticalKey highMinProps "Home" (state_at 75 70 None)) = num 50
  /\ within (minLeftPct highMinProps) (num 100 - minRightPct highMinProps)%js (num 50) = false
  /\ clamp (num 50) (minLeftPct highMinProps) (num 100 - minRightPct highMinProps)%js = num 60
  /\ topPct (handleHorizontalKey highMinProps "Home" (state_at 75 70 None)) = num 66
  /\ within (minTopPct highMinProps) (num 100 - minBottomPct highMinProps)%js (num 66) = false
  /\ clamp (num 66) (minTopPct highMinProps) (num 100 - minBottomPct highMinProps)%js = num 70.
Proof. repeat split; vm_compute; reflexivity. Qed.

(** C3: without a stored layout the state is seeded from [initial]
    without clamping. With the default bounds and initial ratios 95 and 5
    the component starts at 95 and 5, outside [[20, 80]] and [[15, 85]],
    where clamping would give 80 and 15. *)
Theorem initial_ratios_bypass_clamp :
  initialState Sample.parse wideInitialProps Sample.empty_storage
  = Normal (state_at 95 5 None)
  /\ in_range wideInitialProps (state_at 95 5 None) = false
  /\ clamp (num 95) (minTopPct wideInitialProps)
           (num 100 - minBottomPct wideInitialProps)%js = num 80
  /\ clamp (num 5) (minLeftPct wideInitialProps)
           (num 100 - minRightPct wideInitialProps)%js = num 15.
Proof. repeat split; vm_compute; reflexivity. Qed.

(** Over a top region of zero width a vertical-axis move takes [leftPct]
    from 50 to 85 when the pointer is to the right of it, and to [NaN]
    when it is on its left edge; over a surface of zero height a
    horizontal-axis move takes [topPct] from 65 to 80. *)
Example zero_extent_moves :
  rect_width (topAreaRect collapsed_geometry) = num 0
  /\ rect_height (containerRect collapsed_geometry) = num 0
  /\ onPointerMove defaultProps (pointer_at 10 10) collapsed_geometry
       (state_at 65 50 (Some vertical)) = state_at 65 85 (Some vertical)
  /\ onPointerMove defaultProps (pointer_at 0 0) collapsed_geometry
       (state_at 65 50 (Some vertical)) = nan_left_state
  /\ onPointerMove defaultProps (pointer_at 10 10) collapsed_geometry
       (state_at 65 50 (Some horizontal)) = state_at 80 50 (Some horizontal).
Proof. repeat split; vm_compute; reflexivity. Qed.

(** With [minLeftPct = 60] and [minRightPct = 60] the range of [leftPct]
    runs from 60 down to 40, and both an arrow key and a pointer move set
    [leftPct] to 40, its upper end, not to 60. *)
Example overlapping_bounds_run :
  minLeftPct overlappingProps = num 60
  /\ (num 100 - minRightPct overlappingProps)%js = num 40
  /\ leftPct (handleVerticalKey overlappingProps "ArrowLeft" (state_at 65 50 None)) = num 40
  /\ leftPct (onPointerMove overlappingProps (pointer_at 300 0) sample_geometry
                            (state_at 65 50 (Some vertical))) = num 40
  /\ num 40 <> minLeftPct overlappingProps.
Proof. repeat split; try (vm_compute; reflexivity). vm_compute. discriminate. Qed.

(** C1, as stated, fails: from the mounted component with the default
    bounds, pressing the vertical handle and moving the pointer onto the
    left edge of a top region of zero width leaves [leftPct] at [NaN]. *)
Lemma clamp_invariant_counterexample : ~ clamp_invariant_as_stated.
Proof.
  intros H.
  specialize (H Sample.parse Sample.stringify defaultProps Sample.empty_storage
                [PointerDown vertical; PointerMove (pointer_at 0 0) collapsed_geometry]
                (state_at 65 50 None, Sample.empty_storage)
                (nan_left_state, Sample.empty_storage)
                eq_refl eq_refl eq_refl).
  vm_compute in H. discriminate H.
Qed.


(** C6, as stated, fails: with [minLeftPct = 60] and [minRightPct = 60]
    the left-arrow key takes [leftPct] from 50 to 40, the upper end of
    the range, not to 60. *)
Lemma empty_range_counterexample : ~ empty_range_as_stated.
Proof.
  intros H.
  specialize (H overlappingProps "ArrowLeft"%string (state_at 65 50 None)
                eq_refl eq_refl (or_introl eq_refl)).
  vm_compute in H. discriminate H.
Qed.

(* ===================================================================== *)
(** ** The theorems at concrete inputs                                    *)
(* ===================================================================== *)

Lemma clamp_invariant_witness :
  exists w', run Sample.stringify defaultProps (firstn 4 sample_events)
                 (state_at 65 50 None, Sample.empty_storage) = Normal w'
             /\ in_range defaultProps (fst w') = true.
Proof.
  apply (clamp_invariant Sample.stringify defaultProps sample_events
           (state_at 65 50 None, Sample.empty_storage) 4); reflexivity.
Defined.



Lemma empty_range_pins_to_upper_end_witness :
  leftPct (handleVerticalKey overlappingProps "ArrowLeft" (state_at 65 50 None)) = num 40
  /\ leftPct (handleVerticalKey overlappingProps "ArrowRight" (state_at 65 50 None)) = num 40.
Proof.
  exact (proj1 (proj1 (empty_range_pins_to_upper_end overlappingProps (state_at 65 50 None))
                      eq_refl) eq_refl).
Defined.

Lemma persist_then_initialize_witness :
  exists st', persist Sample.stringify appProps (state_at 70 40 None) Sample.empty_storage
              = Normal st'
    /\ exists s', initialState Sample.parse appProps st' = Normal s'
         /\ topPct s' = num 70 /\ leftPct s' = num 40.
Proof.
  apply (persist_then_initialize Sample.parse Sample.stringify appProps
           (state_at 70 40 None) Sample.empty_storage "flexible-screen-layout");
    try reflexivity.
  vm_compute. discriminate.
Defined.


Lemma pointer_move_while_idle_is_noop_witness :
  onPointerMove defaultProps (pointer_at 300 200) sample_geometry (state_at 65 50 None)
  = state_at 65 50 None
  /\ on_event Sample.stringify defaultProps (PointerMove (pointer_at 300 200) sample_geometry)
          (state_at 65 50 None, Sample.empty_storage)
     = Normal (state_at 65 50 None, Sample.empty_storage).
Proof.
  exact (pointer_move_while_idle_is_noop Sample.stringify defaultProps
           (pointer_at 300 200) sample_geometry
           (state_at 65 50 None, Sample.empty_storage) eq_refl).
Defined.

Lemma pointer_move_keeps_other_ratio_witness :
  topPct (onPointerMove defaultProps (pointer_at 300 200) sample_geometry
                        (state_at 65 30 (Some vertical))) = num 65.
Proof.
  exact (pointer_move_keeps_other_ratio defaultProps (pointer_at 300 200) sample_geometry
           (state_at 65 30 (Some vertical)) vertical eq_refl).
Defined.

(* ===================================================================== *)
(** ** More about [clamp]                                                 *)
(* ===================================================================== *)

Section ClampFacts.

#[local] Arguments Qcompare : simpl never.

Lemma leb_trans a b c : leb a b = true -> leb b c = true -> leb a c = true.
Proof.
  destruct a, b, c; try (simpl; congruence).
  rewrite !leb_Fin. apply Qle_trans.
Qed.

Lemma isNaN_Math_max a b : isNaN (Math_max a b) = isNaN a || isNaN b.
Proof.
  unfold Math_max. destruct (isNaN a) eqn:Ha, (isNaN b) eqn:Hb; try reflexivity.
  simpl. destruct (ltb a b); assumption.
Qed.

Lemma isNaN_Math_min a b : isNaN (Math_min a b) = isNaN a || isNaN b.
Proof.
  unfold Math_min. destruct (isNaN a) eqn:Ha, (isNaN b) eqn:Hb; try reflexivity.
  simpl. destruct (ltb b a); assumption.
Qed.

Lemma Math_max_mono a a' b :
  leb a a' = true -> isNaN b = false -> leb (Math_max a b) (Math_max a' b) = true.
Proof.
  intros H Hb. destruct (leb_not_NaN _ _ H) as [Ha Ha'].
  destruct (Math_max_spec a b Ha Hb) as [[-> H1] | [-> H1]];
    destruct (Math_max_spec a' b Ha' Hb) as [[-> H2] | [-> H2]].
  - exact H.
  - eapply leb_trans; [exact H | apply ltb_true_leb; exact H2].
  - exact H2.
  - apply leb_refl; exact Hb.
Qed.

Lemma Math_min_mono a a' b :
  leb a a' = true -> isNaN b = false -> leb (Math_min a b) (Math_min a' b) = true.
Proof.
  intros H Hb. destruct (leb_not_NaN _ _ H) as [Ha Ha'].
  destruct (Math_min_spec a b Ha Hb) as [[-> H1] | [-> H1]];
    destruct (Math_min_spec a' b Ha' Hb) as [[-> H2] | [-> H2]].
  - exact H.
  - exact H1.
  - eapply leb_trans; [apply ltb_true_leb; exact H1 | exact H].
  - apply leb_refl; exact Hb.
Qed.

Lemma clamp_mono v v' lo hi :
  leb v v' = true -> isNaN lo = false -> isNaN hi = false ->
  leb (clamp v lo hi) (clamp v' lo hi) = true.
Proof.
  intros H Hlo Hhi. unfold clamp.
  apply Math_min_mono; [| exact Hhi]. apply Math_max_mono; assumption.
Qed.

(** X2. When the lower bound is at most the upper bound, clamping a
    value that is not [NaN] gives a value between the bounds. *)
Theorem clamp_lands_in_range v lo hi :
  leb lo hi = true -> isNaN v = false ->
  leb lo (clamp v lo hi) = true /\ leb (clamp v lo hi) hi = true.
Proof.
  intros Hr Hv. apply andb_true_iff. apply (clamp_within v lo hi Hr Hv).
Qed.

(** X3. A value already between the bounds is returned as it is. *)
Theorem clamp_keeps_values_in_range v lo hi :
  leb lo v = true -> leb v hi = true -> clamp v lo hi = v.
Proof.
  intros H1 H2. apply clamp_fixed. unfold within. rewrite H1, H2. reflexivity.
Qed.

(** X4. [clamp] is monotone in the value: for bounds that are numbers, a
    larger value never clamps to a smaller result. *)
Theorem clamp_is_monotone v v' lo hi :
  isNaN lo = false -> isNaN hi = false ->
  leb v v' = true -> leb (clamp v lo hi) (clamp v' lo hi) = true.
Proof.
  intros Hlo Hhi H. unfold clamp.
  apply Math_min_mono; [| exact Hhi]. apply Math_max_mono; assumption.
Qed.

(** X5. [clamp] does not filter [NaN]: its result is [NaN] exactly when
    the value or one of the bounds is. *)
Theorem clamp_NaN_iff v lo hi :
  isNaN (clamp v lo hi) = isNaN v || isNaN lo || isNaN hi.
Proof.
  unfold clamp. rewrite isNaN_Math_min, isNaN_Math_max. reflexivity.
Qed.

End ClampFacts.

(* ===================================================================== *)
(** ** The store over whole runs                                          *)
(* ===================================================================== *)

Section StoreFacts.

Variable JSON_parse : string -> Completion JSValue.
Variable JSON_stringify : JSValue -> string.
Variable props : FlexibleScreenProps.

Lemma persist_cases s st :
  persist JSON_stringify props s st = Normal st
  \/ exists key, storageKey props = Some key /\ working st = true
       /\ persist JSON_stringify props s st
          = Normal {| items := <[key := JSON_stringify (layout_value (topPct s) (leftPct s))]>
                                 (items st);
                      denied := denied st; full := full st |}.
Proof.
  unfold persist, setItem, working. destruct (storageKey props) as [key |]; [| auto].
  destruct (denied st); [auto |]. destruct (full st); [auto |].
  right. exists key. auto.
Qed.

Lemma on_event_store ev w :
  exists s', on_event JSON_stringify props ev w
             = Normal (dispatch props ev (fst w),
                       if deps_changed (fst w) (dispatch props ev (fst w))
                       then s' else snd w)
             /\ persist JSON_stringify props (dispatch props ev (fst w)) (snd w) = Normal s'.
Proof.
  destruct (persist_total JSON_stringify props (dispatch props ev (fst w)) (snd w))
    as [s' Hs'].
  exists s'. split; [| exact Hs']. unfold on_event.
  destruct (deps_changed _ _); [rewrite Hs' |]; reflexivity.
Qed.

(** X6. Mounting never raises: whatever the store holds or refuses and
    whatever [JSON.parse] does, the first render yields a state and a
    store. *)
Theorem mount_never_throws st :
  exists s st', mount JSON_parse JSON_stringify props st = Normal (s, st').
Proof.
  unfold mount.
  destruct (initialState_total JSON_parse props st) as [s ->]. cbn [bind].
  destruct (persist_total JSON_stringify props s st) as [st' ->]. cbn [bind].
  eauto.
Qed.

(** X7. Without a storage key (absent, [null] or the empty string) the
    component never touches the store: neither mounting nor any sequence
    of events changes it, even when the store would throw. *)
Theorem no_key_no_store_access st evs s :
  storageKey props = None ->
  (exists s0, mount JSON_parse JSON_stringify props st = Normal (s0, st))
  /\ exists s', run JSON_stringify props evs (s, st) = Normal (s', st).
Proof.
  intros Hk. split.
  - unfold mount, initialState, readStored, persist. rewrite Hk. cbn [bind]. eauto.
  - revert s. induction evs as [| ev evs IH]; intros s; [cbn; eauto |].
    cbn [run]. unfold on_event, persist. rewrite Hk. cbn [fst snd].
    destruct (deps_changed _ _); cbn [bind]; apply IH.
Qed.

(** X8. The component writes under its own key only: after any sequence
    of events every other item of the store is as it was, and so are the
    store's access conditions. *)
Theorem other_items_untouched key evs w w' :
  storageKey props = Some key ->
  run JSON_stringify props evs w = Normal w' ->
  (forall k, k <> key -> items (snd w') !! k = items (snd w) !! k)
  /\ denied (snd w') = denied (snd w) /\ full (snd w') = full (snd w).
Proof.
  intros Hk. revert w. induction evs as [| ev evs IH]; intros w Hrun.
  - injection Hrun as <-. auto.
  - cbn [run] in Hrun.
    destruct (on_event_store ev w) as (s' & Hev & Hp). rewrite Hev in Hrun.
    cbn [bind] in Hrun. apply IH in Hrun. cbn [snd] in Hrun.
    destruct Hrun as (Hi & Hd & Hf).
    destruct (deps_changed _ _); [| auto].
    destruct (persist_cases (dispatch props ev (fst w)) (snd w))
      as [Hsame | (key' & Hk' & _ & Hw)].
    + rewrite Hsame in Hp. injection Hp as <-. auto.
    + rewrite Hw in Hp. injection Hp as <-. cbn [items denied full] in *.
      assert (key' = key) as -> by congruence.
      repeat split; try assumption.
      intros k Hne. rewrite (Hi k Hne). apply lookup_insert_ne. congruence.
Qed.

(** X9. A store that refuses writes (access denied, or full) is left
    exactly as it was by any sequence of events. *)
Theorem refusing_store_unchanged evs w w' :
  working (snd w) = false ->
  run JSON_stringify props evs w = Normal w' ->
  snd w' = snd w.
Proof.
  revert w. induction evs as [| ev evs IH]; intros w Hw Hrun.
  - injection Hrun as <-. reflexivity.
  - cbn [run] in Hrun.
    destruct (on_event_store ev w) as (s' & Hev & Hp). rewrite Hev in Hrun.
    cbn [bind] in Hrun.
    assert (s' = snd w) as ->.
    { destruct (persist_cases (dispatch props ev (fst w)) (snd w))
        as [Hsame | (key & _ & Hwork & _)]; [| congruence].
      rewrite Hsame in Hp. injection Hp as <-. reflexivity. }
    assert ((if deps_changed (fst w) (dispatch props ev (fst w)) then snd w else snd w)
            = snd w) as E by (destruct (deps_changed _ _); reflexivity).
    rewrite E in Hrun. apply IH in Hrun; [exact Hrun | exact Hw].
Qed.

(** X10. The layout does not depend on the store: every sequence of
    events runs to completion and ends in the state the handlers alone
    compute, whatever the store holds or refuses. *)
Theorem layout_independent_of_store evs s st :
  exists st', run JSON_stringify props evs (s, st)
              = Normal (handle_all props evs s, st').
Proof.
  revert s st. induction evs as [| ev evs IH]; intros s st; [cbn; eauto |].
  cbn [run handle_all fold_left].
  destruct (on_event_total JSON_stringify props ev (s, st)) as [st1 ->].
  cbn [bind fst]. apply IH.
Qed.



End StoreFacts.

(* ===================================================================== *)
(** ** Seeding the state                                                  *)
(* ===================================================================== *)

Section Seeding.

Variable JSON_parse : string -> Completion JSValue.
Variable JSON_stringify : JSValue -> string.
Variable props : FlexibleScreenProps.

(** X12. A stored layout takes precedence over [initial]: when the item
    under the storage key parses to an object with numeric [topPct] and
    [leftPct], the component starts idle with these two numbers clamped
    into their ranges, whatever [initial] says. *)
Theorem stored_layout_seeds_state st key text parsed t l :
  storageKey props = Some key ->
  denied st = false ->
  items st !! key = Some text ->
  text <> EmptyString ->
  JSON_parse text = Normal parsed ->
  optional_get parsed "topPct" = JSnumber t ->
  optional_get parsed "leftPct" = JSnumber l ->
  initialState JSON_parse props st
  = Normal {| topPct := clamp t (minTopPct props) (num 100 - minBottomPct props)%js;
              leftPct := clamp l (minLeftPct props) (num 100 - minRightPct props)%js;
              dragRef := None; select_none := false |}.
Proof.
  intros Hk Hd Hi Ht Hp Htop Hleft. unfold initialState.
  rewrite (readStored_valid JSON_parse props st key text parsed t l); try assumption.
  reflexivity.
Qed.

(** X13. Anything else falls back to [initial] (or 65 and 50): access
    denied, no item under the key, an empty item, text that does not
    parse, or a parsed value whose [topPct] or [leftPct] is not a number. *)
Theorem unusable_store_seeds_fallback st key :
  storageKey props = Some key ->
  denied st = true
  \/ items st !! key = None
  \/ items st !! key = Some EmptyString
  \/ (exists text e, items st !! key = Some text /\ JSON_parse text = Throw e)
  \/ (exists text parsed, items st !! key = Some text
        /\ JSON_parse text = Normal parsed
        /\ ((forall n, optional_get parsed "topPct" <> JSnumber n)
            \/ (forall n, optional_get parsed "leftPct" <> JSnumber n))) ->
  initialState JSON_parse props st = Normal (fallback_state props).
Proof.
  intros Hk H. apply initialState_fallback.
  unfold readStored, getItem. rewrite Hk.
  destruct H as [Hd | [Hi | [Hi | [(text & e & Hi & Hp) | (text & parsed & Hi & Hp & Hn)]]]].
  - rewrite Hd. reflexivity.
  - destruct (denied st); [reflexivity |]. rewrite Hi. reflexivity.
  - destruct (denied st); [reflexivity |]. rewrite Hi. reflexivity.
  - destruct (denied st); [reflexivity |]. rewrite Hi. cbn [bind].
    destruct (String.eqb text EmptyString); [reflexivity |]. rewrite Hp. reflexivity.
  - destruct (denied st); [reflexivity |]. rewrite Hi. cbn [bind].
    destruct (String.eqb text EmptyString); [reflexivity |]. rewrite Hp. cbn [bind].
    destruct Hn as [Hn | Hn].
    + destruct (optional_get parsed "topPct") as [| | | n | | |];
        try reflexivity. destruct (Hn n eq_refl).
    + destruct (optional_get parsed "leftPct") as [| | | n | | |];
        try (destruct (optional_get parsed "topPct"); reflexivity).
      destruct (Hn n eq_refl).
Qed.

Lemma readStored_some st t l :
  readStored JSON_parse props st = Normal (Some (t, l)) ->
  exists t0 l0,
    t = clamp t0 (minTopPct props) (num 100 - minBottomPct props)%js
    /\ l = clamp l0 (minLeftPct props) (num 100 - minRightPct props)%js.
Proof.
  unfold readStored, getItem. destruct (storageKey props) as [key |]; [| discriminate].
  destruct (denied st); [discriminate |]. cbn [bind].
  destruct (items st !! key) as [text |]; [| discriminate].
  destruct (String.eqb text EmptyString); [discriminate |].
  destruct (JSON_parse text) as [parsed |]; [| discriminate]. cbn [bind].
  destruct (optional_get parsed "topPct") as [| | | t0 | | |]; try discriminate.
  destruct (optional_get parsed "leftPct") as [| | | l0 | | |]; try discriminate.
  cbn [try_catch]. intros [= <- <-]. eauto.
Qed.

Lemma clamp_result_in_range v lo hi :
  leb lo hi = true -> isNaN (clamp v lo hi) = false ->
  within lo hi (clamp v lo hi) = true.
Proof.
  intros Hr Hn. apply clamp_within; [exact Hr |].
  unfold clamp in Hn. rewrite isNaN_Math_min, isNaN_Math_max in Hn.
  destruct (isNaN v); [discriminate | reflexivity].
Qed.

(** X14. What is read from the store is in range: with non-empty clamp
    ranges, the two numbers [readStored] returns lie within
    [[minTopPct, 100 - minBottomPct]] and [[minLeftPct, 100 - minRightPct]]
    unless they are [NaN]. *)
Theorem stored_ratios_in_range st t l :
  ranges_ok props = true ->
  readStored JSON_parse props st = Normal (Some (t, l)) ->
  isNaN t = false -> isNaN l = false ->
  within (minTopPct props) (num 100 - minBottomPct props)%js t = true
  /\ within (minLeftPct props) (num 100 - minRightPct props)%js l = true.
Proof.
  intros Hr Hs Ht Hl. unfold ranges_ok in Hr.
  apply andb_true_iff in Hr as [Htop Hleft].
  destruct (readStored_some st t l Hs) as (t0 & l0 & -> & ->).
  split; apply clamp_result_in_range; assumption.
Qed.

Lemma initialState_cases st s :
  initialState JSON_parse props st = Normal s ->
  s = fallback_state props
  \/ exists t l, readStored JSON_parse props st = Normal (Some (t, l))
       /\ s = {| topPct := t; leftPct := l; dragRef := None; select_none := false |}.
Proof.
  unfold initialState.
  destruct (readStored_total JSON_parse props st) as [[[t l] |] Hr]; rewrite Hr;
    cbn [bind]; intros [= <-]; [right | left]; eauto.
Qed.

(** X15. The clamp invariant from the first render on. With non-empty
    clamp ranges, initial ratios in range and a parser that yields no
    [NaN] for the stored item, the mounted component is in range and
    stays in range after every sequence of pointer-down, pointer-up and
    pointer-cancel events, pointer moves over measurable rectangles and
    key presses other than [Home]. *)
Theorem mounted_component_in_range st evs :
  ranges_ok props = true ->
  in_range props (fallback_state props) = true ->
  (forall key text parsed,
     storageKey props = Some key -> items st !! key = Some text ->
     JSON_parse text = Normal parsed ->
     optional_get parsed "topPct" <> JSnumber NaN
     /\ optional_get parsed "leftPct" <> JSnumber NaN) ->
  forallb clamped_event evs = true ->
  exists w w', mount JSON_parse JSON_stringify props st = Normal w
               /\ in_range props (fst w) = true
               /\ run JSON_stringify props evs w = Normal w'
               /\ in_range props (fst w') = true.
Proof.
  intros Hr Hfb Hparse Hevs.
  destruct (initialState_total JSON_parse props st) as [s Hs0].
  destruct (persist_total JSON_stringify props s st) as [st' Hp0].
  assert (mount JSON_parse JSON_stringify props st = Normal (s, st')) as Hm.
  { unfold mount. rewrite Hs0. cbn [bind]. rewrite Hp0. reflexivity. }
  assert (in_range props s = true) as Hs.
  { destruct (initialState_cases st s Hs0) as [-> | (t & l & Hread & ->)];
      [exact Hfb |].
    apply in_range_parts. cbn [topPct leftPct].
    revert Hread. unfold readStored, getItem.
    destruct (storageKey props) as [key |] eqn:Hk; [| discriminate].
    destruct (denied st); [discriminate |]. cbn [bind].
    destruct (items st !! key) as [text |] eqn:Hi; [| discriminate].
    destruct (String.eqb text EmptyString); [discriminate |].
    destruct (JSON_parse text) as [parsed |] eqn:Hp; [| discriminate]. cbn [bind].
    destruct (Hparse key text parsed eq_refl Hi Hp) as [Hnt Hnl].
    destruct (optional_get parsed "topPct") as [| | | t0 | | |]; try discriminate.
    destruct (optional_get parsed "leftPct") as [| | | l0 | | |]; try discriminate.
    cbn [try_catch]. intros [= <- <-].
    unfold ranges_ok in Hr. apply andb_true_iff in Hr as [Htop Hleft].
    split; apply clamp_within; try assumption.
    + destruct t0; try reflexivity. destruct Hnt; reflexivity.
    + destruct l0; try reflexivity. destruct Hnl; reflexivity. }
  destruct (run_in_range JSON_stringify props evs (s, st') Hr Hs Hevs) as (w' & Hrun & Hw').
  exists (s, st'), w'. auto.
Qed.

End Seeding.

(* ===================================================================== *)
(** ** Drag sessions                                                      *)
(* ===================================================================== *)

Section DragSessions.

Variable JSON_parse : string -> Completion JSValue.
Variable JSON_stringify : JSValue -> string.
Variable props : FlexibleScreenProps.

#[local] Arguments Qcompare : simpl never.
#[local] Arguments Qred : simpl never.

(** X17. Pointer traffic without a pointer-down does nothing to an idle
    component: any sequence of moves, releases and cancels leaves the
    state and the store exactly as they were. *)
Theorem idle_component_ignores_pointer_traffic evs (w : State * Storage) :
  dragRef (fst w) = None -> select_none (fst w) = false ->
  forallb passive_event evs = true ->
  run JSON_stringify props evs w = Normal w.
Proof.
  intros Hd Hs. induction evs as [| ev evs IH]; intros Hevs; [reflexivity |].
  cbn [forallb] in Hevs. apply andb_true_iff in Hevs as [Hev Hevs].
  assert (dispatch props ev (fst w) = fst w) as Hsame.
  { destruct ev; try discriminate; cbn [dispatch].
    - apply onPointerMove_idle. exact Hd.
    - unfold stopDragging. destruct (fst w); cbn in *; subst; reflexivity.
    - unfold stopDragging. destruct (fst w); cbn in *; subst; reflexivity. }
  cbn [run]. unfold on_event. rewrite Hsame, deps_unchanged.
  cbn [bind]. destruct w. cbn [fst snd] in *. apply IH. exact Hevs.
Qed.

(** X18. Pointer-down, pointer-up and pointer-cancel never change the
    ratios, and a key press never changes the drag session nor the ratio
    of the other handle. *)
Theorem events_write_only_their_part ev s :
  match ev with
  | PointerDown _ | PointerUp | PointerCancel =>
      topPct (dispatch props ev s) = topPct s
      /\ leftPct (dispatch props ev s) = leftPct s
  | PointerMove _ _ =>
      dragRef (dispatch props ev s) = dragRef s
      /\ select_none (dispatch props ev s) = select_none s
  | KeyDown vertical _ =>
      dragRef (dispatch props ev s) = dragRef s
      /\ select_none (dispatch props ev s) = select_none s
      /\ topPct (dispatch props ev s) = topPct s
  | KeyDown horizontal _ =>
      dragRef (dispatch props ev s) = dragRef s
      /\ select_none (dispatch props ev s) = select_none s
      /\ leftPct (dispatch props ev s) = leftPct s
  end.
Proof.
  destruct ev as [type | e g | | | [|] key]; cbn [dispatch]; try (split; reflexivity).
  - destruct (dragRef s) as [[|]|] eqn:Hd.
    + rewrite (onPointerMove_horizontal _ _ _ _ Hd). split; [exact Hd | reflexivity].
    + rewrite (onPointerMove_vertical _ _ _ _ Hd). split; [exact Hd | reflexivity].
    + rewrite (onPointerMove_idle _ _ _ _ Hd). split; [exact Hd | reflexivity].
  - unfold handleHorizontalKey.
    repeat match goal with |- context [if ?b then _ else _] => destruct b end;
      repeat split.
  - unfold handleVerticalKey.
    repeat match goal with |- context [if ?b then _ else _] => destruct b end;
      repeat split.
Qed.

Lemma pct_mono x x' o w :
  x <= x' -> 0 < w ->
  leb ((Fin x - Fin o) / Fin w * num 100)%js ((Fin x' - Fin o) / Fin w * num 100)%js = true.
Proof.
  intros Hx Hw. cbn [sub div].
  assert (Qsign w = Gt) as -> by (apply Qgt_alt; exact Hw).
  cbn [mul]. apply leb_Fin. rewrite !Qred_correct.
  apply Qmult_le_compat_r; [| unfold num; cbn; discriminate].
  unfold Qdiv. apply Qmult_le_compat_r; [lra |].
  apply Qlt_le_weak, Qinv_lt_0_compat. exact Hw.
Qed.

(** X19. Dragging is monotone in the pointer position: over a rectangle
    of positive extent and for bounds that are numbers, a pointer further
    right never gives a smaller [leftPct], and a pointer further down
    never gives a smaller [topPct]. *)
Theorem drag_is_monotone e e' g s type :
  dragRef s = Some type ->
  ranges_ok props = true ->
  measurable_move e g = true -> measurable_move e' g = true ->
  match type with
  | vertical =>
      ltb (num 0) (rect_width (topAreaRect g)) = true ->
      leb (clientX e) (clientX e') = true ->
      leb (leftPct (onPointerMove props e g s))
          (leftPct (onPointerMove props e' g s)) = true
  | horizontal =>
      ltb (num 0) (rect_height (containerRect g)) = true ->
      leb (clientY e) (clientY e') = true ->
      leb (topPct (onPointerMove props e g s))
          (topPct (onPointerMove props e' g s)) = true
  end.
Proof.
  intros Hd Hr Hm Hm'. unfold ranges_ok in Hr.
  apply andb_true_iff in Hr as [Htop Hleft].
  destruct (leb_not_NaN _ _ Htop) as [Ht1 Ht2].
  destruct (leb_not_NaN _ _ Hleft) as [Hl1 Hl2].
  destruct (measurable_move_parts _ _ Hm) as (Hx & Hy & Hw & Hh).
  destruct (measurable_move_parts _ _ Hm') as (Hx' & Hy' & _ & _).
  unfold measurable in Hw, Hh.
  apply andb_true_iff in Hw as [Hw _]. apply andb_true_iff in Hw as [Hwo Hws].
  apply andb_true_iff in Hh as [Hh _]. apply andb_true_iff in Hh as [Hho Hhs].
  destruct type; intros Hpos Hle.
  - rewrite !(onPointerMove_horizontal _ _ _ _ Hd). cbn [with_topPct topPct].
    apply clamp_mono; try assumption.
    destruct (clientY e) as [| | y |], (clientY e') as [| | y' |]; try discriminate.
    destruct (rect_top (containerRect g)) as [| | o |]; try discriminate.
    destruct (rect_height (containerRect g)) as [| | h |]; try discriminate.
    apply pct_mono; [apply leb_Fin; exact Hle | apply ltb_Fin; exact Hpos].
  - rewrite !(onPointerMove_vertical _ _ _ _ Hd). cbn [with_leftPct leftPct].
    apply clamp_mono; try assumption.
    destruct (clientX e) as [| | x |], (clientX e') as [| | x' |]; try discriminate.
    destruct (rect_left (topAreaRect g)) as [| | o |]; try discriminate.
    destruct (rect_width (topAreaRect g)) as [| | wd |]; try discriminate.
    apply pct_mono; [apply leb_Fin; exact Hle | apply ltb_Fin; exact Hpos].
Qed.

End DragSessions.

(* ===================================================================== *)
(** ** Arrow keys                                                         *)
(* ===================================================================== *)

Section ArrowKeys.

Variable JSON_stringify : JSValue -> string.
Variable props : FlexibleScreenProps.

#[local] Arguments Qcompare : simpl never.
#[local] Arguments Qred : simpl never.

Lemma sub_step_le v : isNaN v = false -> leb (v - step)%js v = true.
Proof.
  destruct v as [| | q |]; try (cbn; congruence). intros _.
  unfold step, num. cbn [sub]. apply leb_Fin. rewrite Qred_correct.
  change (inject_Z 2) with 2. lra.
Qed.

Lemma add_step_ge v : isNaN v = false -> leb v (v + step)%js = true.
Proof.
  destruct v as [| | q |]; try (cbn; congruence). intros _.
  unfold step, num. cbn [add]. apply leb_Fin. rewrite Qred_correct.
  change (inject_Z 2) with 2. lra.
Qed.

Lemma within_parts lo hi v :
  within lo hi v = true ->
  leb lo v = true /\ leb v hi = true
  /\ isNaN lo = false /\ isNaN v = false /\ isNaN hi = false.
Proof.
  unfold within. intros H. apply andb_true_iff in H as [H1 H2].
  destruct (leb_not_NaN _ _ H1) as [? ?]. destruct (leb_not_NaN _ _ H2) as [? ?].
  auto.
Qed.

Lemma decrement_le v lo hi :
  within lo hi v = true -> leb (clamp (v - step)%js lo hi) v = true.
Proof.
  intros H. pose proof (within_parts _ _ _ H) as (_ & _ & Hlo & Hv & Hhi).
  rewrite <- (clamp_fixed v lo hi H) at 2.
  apply clamp_mono; try assumption. apply sub_step_le. exact Hv.
Qed.

Lemma increment_ge v lo hi :
  within lo hi v = true -> leb v (clamp (v + step)%js lo hi) = true.
Proof.
  intros H. pose proof (within_parts _ _ _ H) as (_ & _ & Hlo & Hv & Hhi).
  rewrite <- (clamp_fixed v lo hi H) at 1.
  apply clamp_mono; try assumption. apply add_step_ge. exact Hv.
Qed.

(** X20. Keys a handle does not handle do nothing: on the vertical
    handle every key but [ArrowLeft], [ArrowRight] and [Home], and on the
    horizontal handle every key but [ArrowUp], [ArrowDown] and [Home],
    leaves the state and the store exactly as they were. *)
Theorem unhandled_keys_do_nothing handle key (w : State * Storage) :
  key <> "Home"%string ->
  match handle with
  | vertical => key <> "ArrowLeft"%string /\ key <> "ArrowRight"%string
  | horizontal => key <> "ArrowUp"%string /\ key <> "ArrowDown"%string
  end ->
  on_event JSON_stringify props (KeyDown handle key) w = Normal w.
Proof.
  intros Hh Hk.
  assert (dispatch props (KeyDown handle key) (fst w) = fst w) as Hsame.
  { destruct handle; destruct Hk as [H1 H2]; cbn [dispatch].
    - apply handleHorizontalKey_other; assumption.
    - apply handleVerticalKey_other; assumption. }
  unfold on_event. rewrite Hsame, deps_unchanged. destruct w; reflexivity.
Qed.

(** X21. From a state in range, the arrow keys move their ratio one way
    only: [ArrowLeft] never increases [leftPct] and [ArrowRight] never
    decreases it; [ArrowUp] never increases [topPct] and [ArrowDown]
    never decreases it. *)
Theorem arrow_keys_move_one_way s :
  in_range props s = true ->
  leb (leftPct (handleVerticalKey props "ArrowLeft" s)) (leftPct s) = true
  /\ leb (leftPct s) (leftPct (handleVerticalKey props "ArrowRight" s)) = true
  /\ leb (topPct (handleHorizontalKey props "ArrowUp" s)) (topPct s) = true
  /\ leb (topPct s) (topPct (handleHorizontalKey props "ArrowDown" s)) = true.
Proof.
  intros H. apply in_range_parts in H as [Ht Hl].
  repeat split.
  - apply decrement_le. exact Hl.
  - apply increment_ge. exact Hl.
  - apply decrement_le. exact Ht.
  - apply increment_ge. exact Ht.
Qed.

End ArrowKeys.

(* ===================================================================== *)
(** ** Repeated key presses                                               *)
(* ===================================================================== *)

Section RepeatedKeys.

Variable props : FlexibleScreenProps.

#[local] Arguments Qcompare : simpl never.
#[local] Arguments Qred : simpl never.

Lemma travel_succ n :
  inject_Z (2 * Z.of_nat (S n)) == 2 + inject_Z (2 * Z.of_nat n).
Proof.
  rewrite Nat2Z.inj_succ, Z.mul_succ_r, inject_Z_plus.
  change (inject_Z 2) with 2. ring.
Qed.

Lemma travel_nonneg n : 0 <= inject_Z (2 * Z.of_nat n).
Proof.
  change 0 with (inject_Z 0). rewrite <- Zle_Qle. lia.
Qed.

(** In exact arithmetic [n] presses of [ArrowLeft] lower a ratio that
    stays in range by [2 n]. *)
Lemma arrow_left_presses_exact n s q :
  leftPct s = Fin q ->
  within (minLeftPct props) (num 100 - minRightPct props)%js (Fin q) = true ->
  within (minLeftPct props) (num 100 - minRightPct props)%js
         (Fin (q - inject_Z (2 * Z.of_nat n))) = true ->
  leftPct (handle_all props (repeat_key n vertical "ArrowLeft") s)
  ≡ₙ Fin (q - inject_Z (2 * Z.of_nat n))
  /\ topPct (handle_all props (repeat_key n vertical "ArrowLeft") s) = topPct s.
Proof.
  revert s q. induction n as [| n IH]; intros s q Hs Hq Hend.
  - cbn [repeat_key handle_all fold_left]. rewrite Hs. split; [| reflexivity].
    cbn [eqv]. change (inject_Z (2 * Z.of_nat 0)) with 0. ring.
  - cbn [repeat_key handle_all fold_left dispatch].
    change (fold_left (fun acc ev => dispatch props ev acc)
                      (repeat_key n vertical "ArrowLeft")
                      (handleVerticalKey props "ArrowLeft" s))
      with (handle_all props (repeat_key n vertical "ArrowLeft")
                       (handleVerticalKey props "ArrowLeft" s)).
    pose proof (within_parts _ _ _ Hq) as (Hlo & Hhi & _).
    pose proof (within_parts _ _ _ Hend) as (Hlo' & _ & _).
    pose proof (travel_succ n) as Hsucc. pose proof (travel_nonneg n) as Hpos.
    assert (within (minLeftPct props) (num 100 - minRightPct props)%js
                   (Fin (Qred (q - 2))) = true) as Hone.
    { unfold within. apply andb_true_iff. split.
      - eapply leb_trans; [exact Hlo' |]. apply leb_Fin.
        rewrite Qred_correct, Hsucc. lra.
      - eapply leb_trans; [| exact Hhi]. apply leb_Fin. rewrite Qred_correct. lra. }
    assert (handleVerticalKey props "ArrowLeft" s
            = with_leftPct (Fin (Qred (q - 2))) s) as Hpress.
    { cbn [handleVerticalKey String.eqb Ascii.eqb Bool.eqb]. rewrite Hs.
      change (Fin q - step)%js with (Fin (Qred (q - 2))).
      rewrite (clamp_fixed _ _ _ Hone). reflexivity. }
    rewrite Hpress.
    destruct (IH (with_leftPct (Fin (Qred (q - 2))) s) (Qred (q - 2)) eq_refl Hone)
      as [Hleft Htop].
    { unfold within in *. apply andb_true_iff in Hend as [He1 He2].
      apply andb_true_iff. split.
      - rewrite <- He1. apply leb_eqv; [apply eqv_refl |].
        cbn [eqv]. rewrite Qred_correct, Hsucc. ring.
      - rewrite <- He2. apply leb_eqv; [| apply eqv_refl].
        cbn [eqv]. rewrite Qred_correct, Hsucc. ring. }
    split; [| exact Htop].
    eapply eqv_trans; [exact Hleft |]. cbn [eqv]. rewrite Qred_correct, Hsucc. ring.
Qed.

Lemma within_eqv lo hi v v' : v ≡ₙ v' -> within lo hi v = within lo hi v'.
Proof.
  intros H. unfold within.
  rewrite (leb_eqv lo lo v v' (eqv_refl lo) H), (leb_eqv v v' hi hi H (eqv_refl hi)).
  reflexivity.
Qed.

(** X25. Arrow presses add up: from an integer [leftPct] in range, [n]
    presses of [ArrowLeft] on the vertical handle lower it by [2 n], as
    long as the ratio so lowered is still in range; no press is lost and
    the other ratio is unchanged. The integers are those a double holds
    exactly, at most [2^53] in absolute value, so that no subtraction
    rounds. *)
Theorem arrow_left_presses_add_up n s z :
  leftPct s = num z ->
  (- 2 ^ 53 <= z - 2 * Z.of_nat n)%Z -> (z <= 2 ^ 53)%Z ->
  within (minLeftPct props) (num 100 - minRightPct props)%js (num z) = true ->
  within (minLeftPct props) (num 100 - minRightPct props)%js
         (num (z - 2 * Z.of_nat n)) = true ->
  leftPct (handle_all props (repeat_key n vertical "ArrowLeft") s)
  ≡ₙ num (z - 2 * Z.of_nat n)
  /\ topPct (handle_all props (repeat_key n vertical "ArrowLeft") s) = topPct s.
Proof.
  intros Hs _ _ Hz Hend.
  assert (num (z - 2 * Z.of_nat n) ≡ₙ Fin (inject_Z z - inject_Z (2 * Z.of_nat n))) as E.
  { unfold num. cbn [eqv]. unfold Qminus, Z.sub.
    rewrite inject_Z_plus, inject_Z_opp. reflexivity. }
  rewrite (within_eqv _ _ _ _ E) in Hend.
  destruct (arrow_left_presses_exact n s (inject_Z z) Hs Hz Hend) as [Hl Ht].
  split; [| exact Ht].
  eapply eqv_trans; [exact Hl | apply eqv_sym; exact E].
Qed.

End RepeatedKeys.

(* ===================================================================== *)
(** ** The further properties at concrete inputs                          *)
(* ===================================================================== *)

Lemma clamp_lands_in_range_witness :
  leb (num 15) (clamp (num 120) (num 15) (num 85)) = true
  /\ leb (clamp (num 120) (num 15) (num 85)) (num 85) = true.
Proof.
  exact (clamp_lands_in_range (num 120) (num 15) (num 85) eq_refl eq_refl).
Defined.

Lemma clamp_keeps_values_in_range_witness : clamp (num 40) (num 15) (num 85) = num 40.
Proof.
  exact (clamp_keeps_values_in_range (num 40) (num 15) (num 85) eq_refl eq_refl).
Defined.

Lemma clamp_is_monotone_witness :
  leb (clamp (num 10) (num 15) (num 85)) (clamp (num 60) (num 15) (num 85)) = true.
Proof.
  exact (clamp_is_monotone (num 10) (num 60) (num 15) (num 85) eq_refl eq_refl eq_refl).
Defined.

Lemma no_key_no_store_access_witness :
  (exists s0, mount Sample.parse Sample.stringify defaultProps denied_storage
              = Normal (s0, denied_storage))
  /\ exists s', run Sample.stringify defaultProps sample_events
                    (state_at 65 50 None, denied_storage)
                = Normal (s', denied_storage).
Proof.
  exact (no_key_no_store_access Sample.parse Sample.stringify defaultProps
           denied_storage sample_events (state_at 65 50 None) eq_refl).
Defined.

Lemma other_items_untouched_witness :
  (forall k, k <> "k"%string ->
     items (snd (outcome (run Sample.stringify keyedProps sample_events
                              (state_at 65 50 None, shared_storage))
                         (state_at 65 50 None, shared_storage))) !! k
     = items shared_storage !! k)
  /\ denied (snd (outcome (run Sample.stringify keyedProps sample_events
                               (state_at 65 50 None, shared_storage))
                          (state_at 65 50 None, shared_storage))) = false
  /\ full (snd (outcome (run Sample.stringify keyedProps sample_events
                             (state_at 65 50 None, shared_storage))
                        (state_at 65 50 None, shared_storage))) = false.
Proof.
  apply (other_items_untouched Sample.stringify keyedProps "k" sample_events
           (state_at 65 50 None, shared_storage)).
  - reflexivity.
  - vm_compute. reflexivity.
Defined.

Lemma refusing_store_unchanged_witness :
  snd (outcome (run Sample.stringify keyedProps sample_events
                    (state_at 65 50 None, full_storage))
               (state_at 65 50 None, full_storage))
  = full_storage.
Proof.
  apply (refusing_store_unchanged Sample.stringify keyedProps sample_events
           (state_at 65 50 None, full_storage)).
  - reflexivity.
  - vm_compute. reflexivity.
Defined.


Lemma stored_layout_seeds_state_witness :
  initialState Sample.parse appProps (stored_layout "flexible-screen-layout" 95 5)
  = Normal {| topPct := clamp (num 95) (num 20) (num 80);
              leftPct := clamp (num 5) (num 15) (num 85);
              dragRef := None; select_none := false |}.
Proof.
  apply (stored_layout_seeds_state Sample.parse appProps
           (stored_layout "flexible-screen-layout" 95 5) "flexible-screen-layout"
           (Sample.stringify (layout_value (num 95) (num 5)))
           (layout_value (num 95) (num 5)) (num 95) (num 5));
    try reflexivity.
  vm_compute. discriminate.
Defined.

Lemma unusable_store_seeds_fallback_witness :
  initialState Sample.parse keyedProps (Sample.storage_with "k" "not json")
  = Normal (fallback_state keyedProps).
Proof.
  apply (unusable_store_seeds_fallback Sample.parse keyedProps
           (Sample.storage_with "k" "not json") "k" eq_refl).
  right. right. right. left. exists "not json"%string, SyntaxError.
  split; reflexivity.
Defined.

Lemma stored_ratios_in_range_witness :
  within (num 20) (num 80) (num 80) = true /\ within (num 15) (num 85) (num 15) = true.
Proof.
  exact (stored_ratios_in_range Sample.parse keyedProps (stored_layout "k" 95 5)
           (num 80) (num 15) eq_refl eq_refl eq_refl eq_refl).
Defined.

Lemma mounted_component_in_range_witness :
  exists w w',
    mount Sample.parse Sample.stringify appProps
          (stored_layout "flexible-screen-layout" 95 5) = Normal w
    /\ in_range appProps (fst w) = true
    /\ run Sample.stringify appProps sample_events w = Normal w'
    /\ in_range appProps (fst w') = true.
Proof.
  apply (mounted_component_in_range Sample.parse Sample.stringify appProps
           (stored_layout "flexible-screen-layout" 95 5) sample_events);
    try reflexivity.
  intros key text parsed Hk Hi Hp.
  injection Hk as <-. vm_compute in Hi. injection Hi as <-.
  vm_compute in Hp. injection Hp as <-.
  split; vm_compute; discriminate.
Defined.

Lemma idle_component_ignores_pointer_traffic_witness :
  run Sample.stringify defaultProps
      [PointerMove (pointer_at 300 200) sample_geometry; PointerUp;
       PointerMove (pointer_at 10 10) collapsed_geometry; PointerCancel]
      (state_at 65 50 None, Sample.empty_storage)
  = Normal (state_at 65 50 None, Sample.empty_storage).
Proof.
  apply (idle_component_ignores_pointer_traffic Sample.stringify defaultProps
           [PointerMove (pointer_at 300 200) sample_geometry; PointerUp;
            PointerMove (pointer_at 10 10) collapsed_geometry; PointerCancel]
           (state_at 65 50 None, Sample.empty_storage));
    reflexivity.
Defined.

Lemma drag_is_monotone_witness :
  leb (leftPct (onPointerMove defaultProps (pointer_at 200 0) sample_geometry
                              (state_at 65 50 (Some vertical))))
      (leftPct (onPointerMove defaultProps (pointer_at 300 0) sample_geometry
                              (state_at 65 50 (Some vertical)))) = true.
Proof.
  exact (drag_is_monotone defaultProps (pointer_at 200 0) (pointer_at 300 0)
           sample_geometry (state_at 65 50 (Some vertical)) vertical
           eq_refl eq_refl eq_refl eq_refl eq_refl eq_refl).
Defined.

Lemma unhandled_keys_do_nothing_witness :
  on_event Sample.stringify keyedProps (KeyDown vertical "ArrowUp")
           (state_at 65 50 None, Sample.empty_storage)
  = Normal (state_at 65 50 None, Sample.empty_storage).
Proof.
  apply (unhandled_keys_do_nothing Sample.stringify keyedProps vertical "ArrowUp"
           (state_at 65 50 None, Sample.empty_storage)).
  - discriminate.
  - split; discriminate.
Defined.

Lemma arrow_keys_move_one_way_witness :
  leb (leftPct (handleVerticalKey defaultProps "ArrowLeft" (state_at 65 15 None)))
      (num 15) = true
  /\ leb (num 15)
         (leftPct (handleVerticalKey defaultProps "ArrowRight" (state_at 65 15 None))) = true
  /\ leb (topPct (handleHorizontalKey defaultProps "ArrowUp" (state_at 65 15 None)))
         (num 65) = true
  /\ leb (num 65)
         (topPct (handleHorizontalKey defaultProps "ArrowDown" (state_at 65 15 None))) = true.
Proof.
  exact (arrow_keys_move_one_way defaultProps (state_at 65 15 None) eq_refl).
Defined.

Lemma arrow_left_presses_add_up_witness :
  leftPct (handle_all defaultProps (repeat_key 5 vertical "ArrowLeft")
                      (state_at 65 50 None)) ≡ₙ num 40
  /\ topPct (handle_all defaultProps (repeat_key 5 vertical "ArrowLeft")
                        (state_at 65 50 None)) = num 65.
Proof.
  apply (arrow_left_presses_add_up defaultProps 5 (state_at 65 50 None) 50);
    try reflexivity; lia.
Defined.

Module Rounding.

Import PrimFloat.


End Rounding.
